(** * AI_BookReader: chunking, vector store and answer aggregation

  A shallow embedding of the retrieval pipeline of the repository:
  - [chunk_text]            (main.py, and again in app.py),
  - [VectorStore]           (vector_store.py),
  - [QASystem]              (qa_system.py).

  Python values are modelled as follows.  A [str] is a [string] whose
  characters are the code points 0..255; an [int] is a [Z]; a finite
  [float] is the rational it denotes ([Q]); a [dict] with string keys is
  a [gmap string _]; a [list] is a [list].  Code that can raise returns
  a [result]. The external capabilities (the sentence tokenizer, the
  embedding model, the flat nearest-neighbour index, the extractive
  question-answering pipeline) are parameters of the code that calls
  them. *)

From Stdlib Require Import ZArith QArith String Ascii List Bool Lia Sorted.
From stdpp Require Import base list strings gmap.

(** ** Python prelude *)

Module Py.

(** Exceptions (all of them subclasses of [Exception]). [ExternalError]
    is an error raised inside one of the external libraries; its payload
    is [str(e)]. *)
Inductive exn : Type :=
| IndexError
| KeyError (key : string)
| ValueError (msg : string)
| ExternalError (msg : string).

Inductive result (A : Type) : Type :=
| Ok (a : A)
| Raise (e : exn).
Arguments Ok {A} a.
Arguments Raise {A} e.

Definition bind {A B : Type} (m : result A) (k : A -> result B) : result B :=
  match m with
  | Ok a => k a
  | Raise e => Raise e
  end.

Definition is_ok {A : Type} (m : result A) : bool :=
  match m with Ok _ => true | Raise _ => false end.

(** [str(e)] *)
Definition str_of_exn (e : exn) : string :=
  match e with
  | IndexError => "list index out of range"
  | KeyError k => "'" +:+ k +:+ "'"
  | ValueError m => m
  | ExternalError m => m
  end.

(** [c.isspace()] on the code points below 256: TAB..CR, FS..US, SPACE,
    NEL (0x85) and NBSP (0xa0). *)
Definition isspace (c : ascii) : bool :=
  let n := nat_of_ascii c in
  (Nat.leb 9 n && Nat.leb n 13) || (Nat.leb 28 n && Nat.leb n 32)
  || Nat.eqb n 133 || Nat.eqb n 160.
Arguments isspace : simpl never.

(** Truth value of a [str]: non-empty. *)
Definition truthy (s : string) : bool :=
  match s with EmptyString => false | String _ _ => true end.

(** Does a word end right before [s]?  (end of text, or whitespace) *)
Definition at_boundary (s : string) : bool :=
  match s with EmptyString => true | String c _ => isspace c end.

(** [s.split()]: the maximal runs of non-whitespace characters. *)
Fixpoint split (s : string) : list string :=
  match s with
  | EmptyString => []
  | String c s' =>
      if isspace c then split s'
      else if at_boundary s' then String c EmptyString :: split s'
      else match split s' with
           | w :: ws => String c w :: ws
           | [] => [String c EmptyString]
           end
  end.

Fixpoint lstrip (s : string) : string :=
  match s with
  | EmptyString => EmptyString
  | String c s' => if isspace c then lstrip s' else s
  end.

Fixpoint rstrip (s : string) : string :=
  match s with
  | EmptyString => EmptyString
  | String c s' =>
      let r := rstrip s' in
      if isspace c && negb (truthy r) then EmptyString else String c r
  end.

(** [s.strip()] *)
Definition strip (s : string) : string := rstrip (lstrip s).

(** [sep.join(ws)] *)
Fixpoint join (sep : string) (ws : list string) : string :=
  match ws with
  | [] => EmptyString
  | w :: ws' =>
      match ws' with
      | [] => w
      | _ :: _ => w +:+ sep +:+ join sep ws'
      end
  end.

(** [len(l)] *)
Definition len {A : Type} (l : list A) : Z := Z.of_nat (length l).

(** [l[i]]: a negative index counts from the end; outside
    [-len(l) .. len(l)-1] it raises [IndexError]. *)
Definition getitem {A : Type} (l : list A) (i : Z) : result A :=
  let j := if (i <? 0)%Z then (i + len l)%Z else i in
  if (j <? 0)%Z then Raise IndexError
  else match l !! Z.to_nat j with
       | Some x => Ok x
       | None => Raise IndexError
       end.

(** [d[k]] on a dict *)
Definition dict_getitem {V : Type} (d : gmap string V) (k : string) : result V :=
  match d !! k with
  | Some v => Ok v
  | None => Raise (KeyError k)
  end.

(** Bound of a slice, as [PySlice_AdjustIndices] computes it for a
    positive step. *)
Definition slice_bound (n i : Z) : Z :=
  if (i <? 0)%Z then Z.max 0 (i + n) else Z.min n i.

(** [l[a:b]] *)
Definition slice {A : Type} (l : list A) (a b : Z) : list A :=
  let a' := slice_bound (len l) a in
  let b' := slice_bound (len l) b in
  take (Z.to_nat (b' - a')) (drop (Z.to_nat a') l).

(** [range(start, stop, step)], as the list of its elements. *)
Definition range (start stop step : Z) : result (list Z) :=
  if (step =? 0)%Z then Raise (ValueError "range() arg 3 must not be zero")
  else
    let count :=
      if (0 <? step)%Z then ((stop - start + step - 1) / step)%Z
      else ((start - stop - step - 1) / (- step))%Z in
    Ok (map (fun j => (start + Z.of_nat j * step)%Z) (seq 0 (Z.to_nat count))).

(** [max(l, key=key)] for a non-empty [l]: the running maximum is
    replaced only by a strictly greater key, so the first maximum wins. *)
Fixpoint max_from {A : Type} (key : A -> Q) (best : A) (l : list A) : A :=
  match l with
  | [] => best
  | x :: l' =>
      match (key x ?= key best)%Q with
      | Gt => max_from key x l'
      | _ => max_from key best l'
      end
  end.

Definition max_by {A : Type} (key : A -> Q) (l : list A) : result A :=
  match l with
  | [] => Raise (ValueError "max() arg is an empty sequence")
  | x :: l' => Ok (max_from key x l')
  end.

End Py.

Import Py.

Notation "'let*' x ':=' m 'in' k" := (Py.bind m (fun x => k))
(at level 10, x name, m at level 100, k at level 200, only parsing).

(** ** main.py: chunk_text *)

Module Chunker.
Section chunk_text.

(** Module-level flag set by the guarded import of [sent_tokenize]. *)
Variable _HAS_SENT_TOKENIZE : bool.
(** nltk's sentence tokenizer (external). *)
Variable sent_tokenize : string -> result (list string).

(** Number of words of a text: [len(text.split())]. *)
Definition word_count (text : string) : Z := len (split text).

(** The [for sent in sentences] loop, on the pair [(chunks, current)]. *)
Fixpoint accumulate (chunk_size : Z) (sentences : list string)
    (chunks : list string) (current : string) : list string * string :=
  match sentences with
  | [] => (chunks, current)
  | sent :: rest =>
      if (chunk_size <? len (split (current +:+ " " +:+ sent)))%Z then
        accumulate chunk_size rest
          (if truthy current then chunks ++ [strip current] else chunks)
          sent
      else
        accumulate chunk_size rest chunks (current +:+ " " +:+ sent)
  end.

Definition chunk_text (text : string) (chunk_size : Z) : result (list string) :=
  let words := split text in
  if (len words <=? chunk_size)%Z then Ok [text]
  else if _HAS_SENT_TOKENIZE then
    let* sentences := sent_tokenize text in
    let '(chunks, current) := accumulate chunk_size sentences [] "" in
    Ok (if truthy current then chunks ++ [strip current] else chunks)
  else
    let* starts := range 0 (len words) chunk_size in
    Ok (map (fun i => join " " (slice words i (i + chunk_size))) starts).

End chunk_text.
End Chunker.

(** ** External capabilities of the vector store *)

(** The flat L2 index of the faiss library, as far as vector_store.py
    uses it: a dimension and the stored vectors, in insertion order. *)
Module Faiss.

Definition vector : Type := list Q.

Record Index : Type := mkIndex { d : Z; xb : list vector }.

(** [faiss.IndexFlatL2(dim)] *)
Definition IndexFlatL2 (dim : Z) : Index := {| d := dim; xb := [] |}.

(** [index.ntotal] *)
Definition ntotal (ix : Index) : Z := len (xb ix).

(** [index.add(embeddings)] *)
Definition add (ix : Index) (embeddings : list vector) : Index :=
  {| d := d ix; xb := xb ix ++ embeddings |}.

(** Squared Euclidean distance. *)
Definition l2sqr (x y : vector) : Q :=
  fold_right Qplus 0%Q (zip_with (fun a b => ((a - b) * (a - b))%Q) x y).

(** The largest finite float32, the distance of a missing neighbour. *)
Definition FLT_MAX : Q := inject_Z ((2 ^ 24 - 1) * 2 ^ 104).

Fixpoint insert_hit (h : Z * Q) (l : list (Z * Q)) : list (Z * Q) :=
  match l with
  | [] => [h]
  | h' :: l' =>
      if Qle_bool (snd h') (snd h) then h' :: insert_hit h l' else h :: l
  end.

Definition nearest (q : vector) (xs : list vector) : list (Z * Q) :=
  fold_right insert_hit []
    (imap (fun i x => (Z.of_nat i, l2sqr q x)) xs).

(** One row of [index.search(queries, k)]: the [k] nearest stored
    vectors by increasing distance; when fewer than [k] vectors are
    stored the row is padded with label [-1]. *)
Definition search_row (ix : Index) (k : Z) (q : vector) : list (Z * Q) :=
  let found := take (Z.to_nat k) (nearest q (xb ix)) in
  found ++ replicate (Z.to_nat k - length found) ((-1)%Z, FLT_MAX).

(** [index.search(queries, k)]: the distance matrix [D] and the label
    matrix [I], one row per query. *)
Definition search (ix : Index) (queries : list vector) (k : Z)
    : result (list (list Q) * list (list Z)) :=
  if (k <=? 0)%Z then Raise (ExternalError "k must be positive")
  else
    let rows := map (search_row ix k) queries in
    Ok (map (map snd) rows, map (map fst) rows).

End Faiss.

(** The files the store persists itself to, in a directory where every
    path names a file of its own: a file is keyed by its path. Paths
    that may name one file are the matter of [Disk]. *)
Module FS.

Inductive file : Type :=
| IndexFile (ix : Faiss.Index)
| NpyFile (records : list (gmap string string))
| OtherFile (content : string).

(** [s.endswith(suffix)] *)
Definition endswith (s suffix : string) : bool :=
  let n := String.length s in
  let m := String.length suffix in
  Nat.leb m n && String.eqb (String.substring (n - m) m s) suffix.

(** [os.path.exists(path)] *)
Definition path_exists (fs : gmap string file) (path : string) : bool :=
  match fs !! path with Some _ => true | None => false end.

(** [faiss.read_index(path)] *)
Definition read_index (fs : gmap string file) (path : string) : result Faiss.Index :=
  match fs !! path with
  | Some (IndexFile ix) => Ok ix
  | Some _ => Raise (ExternalError "not a faiss index")
  | None => Raise (ExternalError "could not open file")
  end.

(** [faiss.write_index(index, path)] *)
Definition write_index (fs : gmap string file) (ix : Faiss.Index) (path : string)
    : gmap string file :=
  <[path := IndexFile ix]> fs.

(** [np.load(path, allow_pickle=True).tolist()] *)
Definition np_load (fs : gmap string file) (path : string)
    : result (list (gmap string string)) :=
  match fs !! path with
  | Some (NpyFile records) => Ok records
  | Some _ => Raise (ExternalError "cannot load file")
  | None => Raise (ExternalError "no such file")
  end.

(** [np.save(path, np.array(records, dtype=object))]: numpy appends
    the extension [.npy] to a file name that does not end with it. *)
Definition np_save (fs : gmap string file) (path : string)
    (records : list (gmap string string)) : gmap string file :=
  let file_name := if endswith path ".npy" then path else path +:+ ".npy" in
  <[file_name := NpyFile records]> fs.

End FS.

(** ** vector_store.py *)

Module VectorStore.

Record t : Type := mkStore {
  index_path : string;
  meta_path : string;
  index : Faiss.Index;
  metadata : list (gmap string string)
}.

(** [try: body except Exception: handler] *)
Definition try_except {A : Type} (body : result A) (handler : exn -> result A)
    : result A :=
  match body with
  | Ok a => Ok a
  | Raise e => handler e
  end.

Section methods.

(** [self.model.get_sentence_embedding_dimension()] *)
Variable dim : Z.
(** [self.model.encode(texts, convert_to_numpy=True)], as float32 rows *)
Variable encode : list string -> list Faiss.vector.
(** [self.index.search(queries, k)] *)
Variable index_search :
  Faiss.Index -> list Faiss.vector -> Z -> result (list (list Q) * list (list Z)).

Definition empty (ip mp : string) : t :=
  {| index_path := ip; meta_path := mp;
     index := Faiss.IndexFlatL2 dim; metadata := [] |}.

Definition _load_index (fs : gmap string FS.file) (ip mp : string) : result t :=
  if FS.path_exists fs ip && FS.path_exists fs mp then
    try_except
      (let* ix := FS.read_index fs ip in
       let* md := FS.np_load fs mp in
       Ok {| index_path := ip; meta_path := mp; index := ix; metadata := md |})
      (fun _ => Ok (empty ip mp))
  else Ok (empty ip mp).

(** [VectorStore(index_path=ip, meta_path=mp)] *)
Definition __init__ (fs : gmap string FS.file) (ip mp : string) : result t :=
  _load_index fs ip mp.

Definition save (self : t) (fs : gmap string FS.file) : gmap string FS.file :=
  let fs1 := FS.write_index fs (index self) (index_path self) in
  FS.np_save fs1 (meta_path self) (metadata self).

Definition add_texts (self : t) (fs : gmap string FS.file)
    (texts : list string) (meta : list (gmap string string))
    : t * gmap string FS.file :=
  match texts with
  | [] => (self, fs)
  | _ :: _ =>
      let embeddings := encode texts in
      let self' :=
        {| index_path := index_path self; meta_path := meta_path self;
           index := Faiss.add (index self) embeddings;
           metadata := metadata self ++ meta |} in
      (self', save self' fs)
  end.

(** The loop [for idx, dist in zip(I[0], D[0])] of [search]. *)
Fixpoint collect (md : list (gmap string string)) (hits : list (Z * Q))
    (results : list (string * gmap string string * Q))
    : result (list (string * gmap string string * Q)) :=
  match hits with
  | [] => Ok results
  | (idx, dist) :: rest =>
      if (idx <? len md)%Z then
        let* record := getitem md idx in
        let* text := dict_getitem record "text" in
        collect md rest (results ++ [(text, record, dist)])
      else collect md rest results
  end.

Definition search (self : t) (query : string) (top_k : Z)
    : result (list (string * gmap string string * Q)) :=
  if (Faiss.ntotal (index self) =? 0)%Z then Ok []
  else
    let query_emb := encode [query] in
    let* DI := index_search (index self) query_emb top_k in
    let* I0 := getitem (snd DI) 0 in
    let* D0 := getitem (fst DI) 0 in
    collect (metadata self) (zip I0 D0) [].

End methods.
End VectorStore.

(** ** qa_system.py *)

Module QASystem.

(** The dict a question-answering pipeline returns; both keys are read
    with [.get]. *)
Record output : Type := mkOutput {
  out_answer : option string;
  out_score : option Q
}.

Record candidate : Type := mkCandidate {
  answer : string;
  score : Q;
  context : string;
  meta : gmap string string;
  error : option string
}.

Record reply : Type := mkReply {
  best_answer : option candidate;
  all_answers : list candidate;
  message : option string
}.

Section methods.

Variable encode : list string -> list Faiss.vector.
Variable index_search :
  Faiss.Index -> list Faiss.vector -> Z -> result (list (list Q) * list (list Z)).
(** [self.qa_pipeline({'question': q, 'context': c})] *)
Variable qa_pipeline : string -> string -> result output.

(** One iteration of the loop over the retrieved contexts: the
    candidate appended for [(context, meta, _)]. *)
Definition extract (question : string) (r : string * gmap string string * Q)
    : candidate :=
  let '(ctx, m, _) := r in
  match qa_pipeline question ctx with
  | Ok out =>
      {| answer := default "" (out_answer out);
         score := default 0%Q (out_score out);
         context := ctx; meta := m; error := None |}
  | Raise e =>
      {| answer := ""; score := 0%Q; context := ctx; meta := m;
         error := Some (str_of_exn e) |}
  end.

Definition answer_question (vector_store : VectorStore.t)
    (question : string) (top_k : Z) : result reply :=
  let* results := VectorStore.search encode index_search vector_store question top_k in
  match results with
  | [] =>
      Ok {| best_answer := None; all_answers := [];
            message := Some "No documents in the index." |}
  | _ :: _ =>
      let candidates := map (extract question) results in
      let* best :=
        match candidates with
        | [] => Ok None
        | _ :: _ => let* b := max_by score candidates in Ok (Some b)
        end in
      Ok {| best_answer := best; all_answers := candidates; message := None |}
  end.

End methods.
End QASystem.

(** ** Vocabulary of the statements *)

Module Props.

(** No whitespace character occurs in [s]. *)
Fixpoint no_space (s : string) : bool :=
  match s with
  | EmptyString => true
  | String c s' => negb (isspace c) && no_space s'
  end.

(** A word: non-empty and free of whitespace. *)
Definition is_word (s : string) : bool := truthy s && no_space s.

(** What [chunk_text] promises of a chunk [c] cut from the sentences
    [sents]: it has at most [chunk_size] words, or it is one sentence
    that alone has more, stripped. *)
Definition chunk_ok (chunk_size : Z) (sents : list string) (c : string) : Prop :=
  (Chunker.word_count c <= chunk_size)%Z
  \/ exists s, s ∈ sents /\ (chunk_size < Chunker.word_count s)%Z /\ c = strip s.

(** A metadata record that carries its chunk text, as the records
    built by [add_book] do. *)
Definition has_text (record : gmap string string) : Prop :=
  is_Some (record !! "text").

(** The tuple that [search] builds for the in-bounds hit [(idx, dist)]. *)
Definition hit_result (md : list (gmap string string)) (hit : Z * Q)
    (res : string * gmap string string * Q) : Prop :=
  exists record text,
    (0 <= hit.1 < len md)%Z
    /\ md !! Z.to_nat hit.1 = Some record
    /\ record !! "text" = Some text
    /\ res = (text, record, hit.2).

(** The index holds as many vectors as the store holds records. *)
Definition counts_agree (self : VectorStore.t) : Prop :=
  Faiss.ntotal (VectorStore.index self) = len (VectorStore.metadata self).

(** A run of [add_texts] calls on one store. *)
Fixpoint add_batches (encode : list string -> list Faiss.vector)
    (self : VectorStore.t) (fs : gmap string FS.file)
    (batches : list (list string * list (gmap string string)))
    : VectorStore.t * gmap string FS.file :=
  match batches with
  | [] => (self, fs)
  | (texts, meta) :: rest =>
      let '(self', fs') := VectorStore.add_texts encode self fs texts meta in
      add_batches encode self' fs' rest
  end.

(** Construct a store on the file system [fs], run the batches, then
    construct a fresh store over the same two paths. *)
Definition reload_after (dim : Z) (encode : list string -> list Faiss.vector)
    (fs : gmap string FS.file) (ip mp : string)
    (batches : list (list string * list (gmap string string)))
    : result VectorStore.t :=
  let* self := VectorStore.__init__ dim fs ip mp in
  let '(_, fs') := add_batches encode self fs batches in
  VectorStore.__init__ dim fs' ip mp.

End Props.

Import Props.

(** ** Concrete stand-ins for the external capabilities

  Deterministic instances at which the statements below are exercised. *)

Module Demo.

Definition book : string := "One two three four. Five six. Seven. Eight nine ten.".

(** A tokenizer that knows the sentences of [book]. *)
Definition sent_tokenize (text : string) : result (list string) :=
  if String.eqb text book
  then Ok ["One two three four."; "Five six."; "Seven."; "Eight nine ten."]
  else Ok [text].

(** A one-dimensional embedding: the length of the text. *)
Definition encode (texts : list string) : list Faiss.vector :=
  map (fun s => [inject_Z (Z.of_nat (String.length s))]) texts.

Definition record (source text : string) : gmap string string :=
  {[ "source" := source; "text" := text ]}.

Definition store (md : list (gmap string string)) (texts : list string)
    : VectorStore.t :=
  {| VectorStore.index_path := "faiss.index";
     VectorStore.meta_path := "meta.npy";
     VectorStore.index := Faiss.add (Faiss.IndexFlatL2 1) (encode texts);
     VectorStore.metadata := md |}.

(** Three chunks, as [add_book] stores them. *)
Definition library : VectorStore.t :=
  store [record "a.txt" "alpha"; record "a.txt" "be"; record "b.txt" "gamma delta"]
        ["alpha"; "be"; "gamma delta"].

(** A question-answering pipeline that fails on the context [be] and
    otherwise scores a context by its length, in tenths. *)
Definition qa_pipeline (question ctx : string) : result QASystem.output :=
  if String.eqb ctx "be" then Raise (ExternalError "model failure")
  else Ok {| QASystem.out_answer := Some ctx;
             QASystem.out_score := Some (Z.of_nat (String.length ctx) # 20)%Q |}.

(** A pipeline that scores the three chunks 0.2, 0.9 and 0.5 in the
    order a three-letter question retrieves them. *)
Definition scored_pipeline (question ctx : string) : result QASystem.output :=
  Ok {| QASystem.out_answer := Some ctx;
        QASystem.out_score :=
          Some (if String.eqb ctx "be" then (2 # 10)%Q
                else if String.eqb ctx "alpha" then (9 # 10)%Q
                else (5 # 10)%Q) |}.

(** What [search] returns on [library] for a three-letter question and
    [top_k = 3]. *)
Definition retrieved : list (string * gmap string string * Q) :=
  [("be", record "a.txt" "be", 1%Q);
   ("alpha", record "a.txt" "alpha", 4%Q);
   ("gamma delta", record "b.txt" "gamma delta", 64%Q)].

End Demo.

(** ** More of the Python library: paths, case, counters *)

Module PyStr.

(** [all(pred(c) for c in s)] *)
Fixpoint all_chars (pred : ascii -> bool) (s : string) : bool :=
  match s with
  | EmptyString => true
  | String c s' => pred c && all_chars pred s'
  end.

(** [c in s] for a character [c] *)
Fixpoint has_char (c : ascii) (s : string) : bool :=
  match s with
  | EmptyString => false
  | String x s' => Ascii.eqb x c || has_char c s'
  end.

(** [s.rfind(c)] for a character [c]: the last position of [c], or -1. *)
Fixpoint rfind (s : string) (c : ascii) : Z :=
  match s with
  | EmptyString => (-1)%Z
  | String x s' =>
      let r := rfind s' c in
      if (r <? 0)%Z then (if Ascii.eqb x c then 0%Z else (-1)%Z) else (r + 1)%Z
  end.

(** [s[a:b]] *)
Definition str_slice (s : string) (a b : Z) : string :=
  let n := Z.of_nat (String.length s) in
  let a' := slice_bound n a in
  let b' := slice_bound n b in
  String.substring (Z.to_nat a') (Z.to_nat (b' - a')) s.

(** [s[a:]] *)
Definition str_from (s : string) (a : Z) : string :=
  str_slice s a (Z.of_nat (String.length s)).

(** [c.lower()] on the code points below 256: A-Z and the upper-case
    letters of Latin-1 (all of 0xC0-0xDE but the multiplication sign). *)
Definition lower_char (c : ascii) : ascii :=
  let n := nat_of_ascii c in
  if (Nat.leb 65 n && Nat.leb n 90)
     || (Nat.leb 192 n && Nat.leb n 222 && negb (Nat.eqb n 215))
  then ascii_of_nat (n + 32) else c.

(** [s.lower()] *)
Fixpoint lower (s : string) : string :=
  match s with
  | EmptyString => EmptyString
  | String c s' => String (lower_char c) (lower s')
  end.

(** The loop of [genericpath._splitext] that skips the leading dots of
    the file name: does a character other than a dot come before the
    last dot? *)
Fixpoint dot_follows_name (name : string) : bool :=
  match name with
  | EmptyString => false
  | String c rest => if Ascii.eqb c "."%char then dot_follows_name rest else true
  end.

(** [os.path.splitext(p)] (posixpath) *)
Definition splitext (p : string) : string * string :=
  let sepIndex := rfind p "/"%char in
  let dotIndex := rfind p "."%char in
  if (sepIndex <? dotIndex)%Z
     && dot_follows_name (str_slice p (sepIndex + 1) dotIndex)
  then (str_slice p 0 dotIndex, str_from p dotIndex)
  else (p, EmptyString).

(** [os.path.basename(p)] (posixpath) *)
Definition basename (p : string) : string :=
  str_from p (rfind p "/"%char + 1).

(** [collections.Counter(items)], as the dict it is: each item counted
    in turn, absent keys counting zero. *)
Definition Counter (items : list string) : gmap string nat :=
  foldl (fun counts item => <[item := S (default 0%nat (counts !! item))]> counts)
        ∅ items.

(** [[f(x) for x in l]] when [f] can raise: the first exception ends the
    comprehension. *)
Fixpoint comprehension {A B : Type} (f : A -> result B) (l : list A)
    : result (list B) :=
  match l with
  | [] => Ok []
  | x :: l' =>
      let* y := f x in
      let* ys := comprehension f l' in
      Ok (y :: ys)
  end.

End PyStr.

(** ** document_loader.py *)

Module DocumentLoader.

(** [re.sub(r'\s+', ' ', text)]: every maximal run of whitespace becomes
    one space. *)
Fixpoint sub_whitespace (text : string) : string :=
  match text with
  | EmptyString => EmptyString
  | String c rest =>
      if isspace c then
        match rest with
        | String c' _ =>
            if isspace c' then sub_whitespace rest
            else String " "%char (sub_whitespace rest)
        | EmptyString => String " "%char EmptyString
        end
      else String c (sub_whitespace rest)
  end.

(** A character of the class [[\x00-\x1f\x7f]]. *)
Definition is_control (c : ascii) : bool :=
  let n := nat_of_ascii c in Nat.leb n 31 || Nat.eqb n 127.
Arguments is_control : simpl never.

(** [re.sub(r'[\x00-\x1f\x7f]', '', text)] *)
Fixpoint sub_control (text : string) : string :=
  match text with
  | EmptyString => EmptyString
  | String c rest =>
      if is_control c then sub_control rest else String c (sub_control rest)
  end.

Definition clean_text (text : string) : string :=
  if truthy text then strip (sub_control (sub_whitespace text))
  else EmptyString.

(** The body of [load_pdf] once the document is open: [pages] holds what
    [page.extract_text()] returns for each page, [None] for a page without
    a text layer. *)
Fixpoint load_pdf_pages (pages : list (option string)) (text : string) : string :=
  match pages with
  | [] => text
  | page_text :: rest =>
      match page_text with
      | Some t =>
          if truthy t then load_pdf_pages rest (text +:+ t +:+ String "010"%char EmptyString)
          else load_pdf_pages rest text
      | None => load_pdf_pages rest text
      end
  end.

(** The body of [load_docx] once the document is open: [paragraphs]
    holds [para.text] for each paragraph. *)
Definition load_docx_paragraphs (paragraphs : list string) : string :=
  join (String "010"%char EmptyString) paragraphs.

Section loaders.

(** The three readers, each from a path to the text of the file. *)
Variable load_pdf : string -> result string.
Variable load_txt : string -> result string.
Variable load_docx : string -> result string.

Definition load_and_clean (file_path : string) : result string :=
  let ext := PyStr.lower (snd (PyStr.splitext file_path)) in
  let* text :=
    if String.eqb ext ".pdf" then load_pdf file_path
    else if String.eqb ext ".txt" then load_txt file_path
    else if String.eqb ext ".docx" then load_docx file_path
    else Raise (ValueError ("Unsupported file type: " +:+ ext)) in
  Ok (clean_text text).

End loaders.
End DocumentLoader.

(** ** main.py: add_book *)

Module Main.
Section add_book.

Variable _HAS_SENT_TOKENIZE : bool.
Variable sent_tokenize : string -> result (list string).
Variable load_pdf : string -> result string.
Variable load_txt : string -> result string.
Variable load_docx : string -> result string.
Variable encode : list string -> list Faiss.vector.

(** [{'source': source, 'text': chunk}] *)
Definition chunk_record (source chunk : string) : gmap string string :=
  <["text" := chunk]> (<["source" := source]> ∅).

(** [add_book(file_path, vector_store)]; the default [chunk_size] of
    [chunk_text] is 500. When it raises, the store and the files are as
    before the call. *)
Definition add_book (file_path : string) (vector_store : VectorStore.t)
    (fs : gmap string FS.file) : result (VectorStore.t * gmap string FS.file) :=
  let* text := DocumentLoader.load_and_clean load_pdf load_txt load_docx file_path in
  if negb (truthy text) then Ok (vector_store, fs)
  else
    let* chunks := Chunker.chunk_text _HAS_SENT_TOKENIZE sent_tokenize text 500 in
    let meta := map (chunk_record (PyStr.basename file_path)) chunks in
    let* texts := PyStr.comprehension (fun m => dict_getitem m "text") meta in
    Ok (VectorStore.add_texts encode vector_store fs texts meta).

End add_book.
End Main.

(** ** app.py: the document list and the reset button *)

Module App.

(** [list_documents()], on the store of the page. *)
Definition list_documents (vector_store : VectorStore.t) : gmap string nat :=
  PyStr.Counter
    (map (fun m : gmap string string => default "unknown" (m !! "source"))
         (VectorStore.metadata vector_store)).

(** The handler of the button [Reset persisted index]: both artifact
    files are removed where they exist. *)
Definition reset_persisted_index (vector_store : VectorStore.t)
    (fs : gmap string FS.file) : gmap string FS.file :=
  let ip := VectorStore.index_path vector_store in
  let mp := VectorStore.meta_path vector_store in
  let fs1 := if FS.path_exists fs ip then delete ip fs else fs in
  if FS.path_exists fs1 mp then delete mp fs1 else fs1.

End App.

(** ** The artifacts on a disk where several paths may name one file *)

(** [FS] keys a file by its path, which is right for a directory in which
    every path names a file of its own. Here a file is keyed by what its
    path resolves to: [resolve] gives the file a path names (what
    [os.path.realpath] computes, up to links and the case rules of the
    file system), the same for [m.npy] and [./m.npy], and it does not
    change while the store runs. As in [FS], every write succeeds. With
    the identity for [resolve] these are the methods of [VectorStore]. *)
Module Disk.
Section disk.

Variable resolve : string -> string.
Variable dim : Z.
Variable encode : list string -> list Faiss.vector.

(** [os.path.exists(path)] *)
Definition path_exists (fs : gmap string FS.file) (path : string) : bool :=
  FS.path_exists fs (resolve path).

(** [faiss.read_index(path)] *)
Definition read_index (fs : gmap string FS.file) (path : string)
    : result Faiss.Index :=
  FS.read_index fs (resolve path).

(** [faiss.write_index(index, path)] *)
Definition write_index (fs : gmap string FS.file) (ix : Faiss.Index)
    (path : string) : gmap string FS.file :=
  FS.write_index fs ix (resolve path).

(** [np.load(path, allow_pickle=True).tolist()] *)
Definition np_load (fs : gmap string FS.file) (path : string)
    : result (list (gmap string string)) :=
  FS.np_load fs (resolve path).

(** [np.save(path, np.array(records, dtype=object))]: the extension is
    appended to the name as given, then the file is opened. *)
Definition np_save (fs : gmap string FS.file) (path : string)
    (records : list (gmap string string)) : gmap string FS.file :=
  let file_name := if FS.endswith path ".npy" then path else path +:+ ".npy" in
  <[resolve file_name := FS.NpyFile records]> fs.

Definition _load_index (fs : gmap string FS.file) (ip mp : string)
    : result VectorStore.t :=
  if path_exists fs ip && path_exists fs mp then
    VectorStore.try_except
      (let* ix := read_index fs ip in
       let* md := np_load fs mp in
       Ok {| VectorStore.index_path := ip; VectorStore.meta_path := mp;
             VectorStore.index := ix; VectorStore.metadata := md |})
      (fun _ => Ok (VectorStore.empty dim ip mp))
  else Ok (VectorStore.empty dim ip mp).

(** [VectorStore(index_path=ip, meta_path=mp)] *)
Definition __init__ (fs : gmap string FS.file) (ip mp : string)
    : result VectorStore.t :=
  _load_index fs ip mp.

Definition save (self : VectorStore.t) (fs : gmap string FS.file)
    : gmap string FS.file :=
  let fs1 := write_index fs (VectorStore.index self) (VectorStore.index_path self) in
  np_save fs1 (VectorStore.meta_path self) (VectorStore.metadata self).

Definition add_texts (self : VectorStore.t) (fs : gmap string FS.file)
    (texts : list string) (meta : list (gmap string string))
    : VectorStore.t * gmap string FS.file :=
  match texts with
  | [] => (self, fs)
  | _ :: _ =>
      let embeddings := encode texts in
      let self' :=
        {| VectorStore.index_path := VectorStore.index_path self;
           VectorStore.meta_path := VectorStore.meta_path self;
           VectorStore.index := Faiss.add (VectorStore.index self) embeddings;
           VectorStore.metadata := VectorStore.metadata self ++ meta |} in
      (self', save self' fs)
  end.

(** A run of [add_texts] calls on one store. *)
Fixpoint add_batches (self : VectorStore.t) (fs : gmap string FS.file)
    (batches : list (list string * list (gmap string string)))
    : VectorStore.t * gmap string FS.file :=
  match batches with
  | [] => (self, fs)
  | (texts, meta) :: rest =>
      let '(self', fs') := add_texts self fs texts meta in
      add_batches self' fs' rest
  end.

(** Construct a store, run the batches, then construct a fresh store
    over the same two paths. *)
Definition reload_after (fs : gmap string FS.file) (ip mp : string)
    (batches : list (list string * list (gmap string string)))
    : result VectorStore.t :=
  let* self := __init__ fs ip mp in
  let '(_, fs') := add_batches self fs batches in
  __init__ fs' ip mp.

End disk.
End Disk.

(** ** Vocabulary for texts and paths *)

Module TextShapes.

(** Not in the class [[\x00-\x1f\x7f]]. *)
Definition printable (c : ascii) : bool := negb (DocumentLoader.is_control c).

(** Whitespace only in the form of the plain space. *)
Definition plain_space (c : ascii) : bool := implb (isspace c) (Ascii.eqb c " ").

(** No control character other than the whitespace ones (tab, newline,
    and so on). *)
Definition tame (c : ascii) : bool := printable c || isspace c.

(** A directory prefix: empty, or ending in a slash. *)
Definition is_dir_prefix (dir : string) : Prop :=
  dir = "" \/ exists d, dir = d +:+ "/".

End TextShapes.

Import TextShapes.

(** ** Vocabulary for stores and replies *)

Module StoreShapes.

(** A store as [add_book] builds it: as many vectors as records, and
    every record carries its text. *)
Definition well_formed (self : VectorStore.t) : Prop :=
  counts_agree self /\ Forall has_text (VectorStore.metadata self).

(** The hits that pass the test [idx < len(self.metadata)]. *)
Definition kept_hits (md : list (gmap string string)) (hits : list (Z * Q))
    : list (Z * Q) :=
  filter (fun h : Z * Q => (h.1 < len md)%Z) hits.

(** The reply of [answer_question] when nothing was retrieved. *)
Definition no_documents : QASystem.reply :=
  {| QASystem.best_answer := None; QASystem.all_answers := [];
     QASystem.message := Some "No documents in the index." |}.

(** Number of records that [list_documents] files under [source]. *)
Definition filed_under (source : string) (md : list (gmap string string)) : nat :=
  length (filter (fun m : gmap string string =>
                    default "unknown" (m !! "source") = source) md).

End StoreShapes.

Import StoreShapes.

(** ** More stand-ins *)

Module Samples.

(** A reader of text files that knows one book. *)
Definition load_txt (path : string) : result string :=
  if String.eqb path "books/moby.txt" then Ok (String "009" "Call  me Ishmael. ")
  else Raise (ExternalError "No such file").

Definition no_reader (path : string) : result string :=
  Raise (ExternalError "not available").

(** A one-dimensional embedding of a single text. *)
Definition embed (text : string) : Faiss.vector :=
  [inject_Z (Z.of_nat (String.length text))].

(** An index that answers every query with the labels 1, 7 and 0. *)
Definition scripted_search (ix : Faiss.Index) (queries : list Faiss.vector) (k : Z)
    : result (list (list Q) * list (list Z)) :=
  Ok ([[1%Q; 2%Q; 3%Q]], [[1%Z; 7%Z; 0%Z]]).

(** A store whose second record has no text. *)
Definition untitled : VectorStore.t :=
  Demo.store [Demo.record "a.txt" "alpha"; {[ "source" := "b.txt" ]}]
             ["alpha"; "x"].

(** A pipeline that fails on every context. *)
Definition failing_pipeline (question ctx : string) : result QASystem.output :=
  Raise (ExternalError "model failure").

(** The reply to a three-letter question on the three-chunk store when
    the pipeline fails throughout, and its best answer. *)
Definition failed_reply : QASystem.reply :=
  match QASystem.answer_question Demo.encode Faiss.search failing_pipeline
          Demo.library "abc" 3 with
  | Ok reply => reply
  | Raise _ => no_documents
  end.

Definition failed_best : QASystem.candidate :=
  {| QASystem.answer := ""; QASystem.score := 0%Q; QASystem.context := "be";
     QASystem.meta := Demo.record "a.txt" "be";
     QASystem.error := Some "model failure" |}.

(** A resolution of paths that knows one alias: a leading [./] names the
    same file as the path without it. *)
Definition realpath (path : string) : string :=
  match path with
  | String "." (String "/" rest) => rest
  | _ => path
  end.

(** A store whose two paths name one file. *)
Definition aliased : VectorStore.t :=
  {| VectorStore.index_path := "./m.npy"; VectorStore.meta_path := "m.npy";
     VectorStore.index := Faiss.add (Faiss.IndexFlatL2 1) (Demo.encode ["alpha"]);
     VectorStore.metadata := [Demo.record "a.txt" "alpha"] |}.

End Samples.

(** ** Facts about the prelude *)

Module PyFacts.

Lemma split_head_word c s :
  isspace c = false -> exists w ws, split (String c s) = w :: ws.
Proof.
  intros H. simpl. rewrite H.
  destruct (at_boundary s); [eauto|].
  destruct (split s); eauto.
Qed.

(** Splitting distributes over a whitespace character. *)
Lemma split_app_space a c b :
  isspace c = true -> split (a +:+ String c b) = split a ++ split b.
Proof.
  intros Hc. induction a as [|x a IH].
  - change ("" +:+ String c b) with (String c b).
    cbn [split app]. by rewrite Hc.
  - change (String x a +:+ String c b) with (String x (a +:+ String c b)).
    cbn [split]. rewrite IH.
    destruct (isspace x) eqn:Hx; [done|].
    destruct a as [|y a].
    + change ("" +:+ String c b) with (String c b).
      cbn [at_boundary split app]. by rewrite Hc.
    + change (at_boundary (String y a +:+ String c b)) with (isspace y).
      change (at_boundary (String y a)) with (isspace y).
      destruct (isspace y) eqn:Hy; [done|].
      destruct (split_head_word y a Hy) as (w & ws & ->). done.
Qed.

Lemma split_lstrip s : split (lstrip s) = split s.
Proof.
  induction s as [|c s IH]; [done|].
  cbn [lstrip]. destruct (isspace c) eqn:Hc; [|done].
  rewrite IH. cbn [split]. by rewrite Hc.
Qed.

Lemma rstrip_at_boundary s :
  truthy (rstrip s) = true -> at_boundary (rstrip s) = at_boundary s.
Proof.
  destruct s as [|c s]; [done|]. cbn [rstrip].
  destruct (isspace c && negb (truthy (rstrip s))); [done|done].
Qed.

Lemma split_rstrip s : split (rstrip s) = split s.
Proof.
  induction s as [|c s IH]; [done|].
  cbn [rstrip]. destruct (isspace c) eqn:Hc.
  - cbn [andb]. destruct (truthy (rstrip s)) eqn:Hr; cbn [negb].
    + cbn [split]. by rewrite Hc, IH.
    + cbn [split]. rewrite Hc, <- IH. by destruct (rstrip s).
  - cbn [andb split]. rewrite Hc, IH.
    destruct (truthy (rstrip s)) eqn:Hr.
    + by rewrite rstrip_at_boundary.
    + destruct (rstrip s) eqn:Hs; [|done].
      cbn [at_boundary]. rewrite <- IH. cbn [split].
      destruct (at_boundary s); [done|done].
Qed.

Lemma split_strip s : split (strip s) = split s.
Proof. unfold strip. by rewrite split_rstrip, split_lstrip. Qed.

Lemma word_count_strip s : Chunker.word_count (strip s) = Chunker.word_count s.
Proof. unfold Chunker.word_count. by rewrite split_strip. Qed.

Lemma word_count_app_space a b :
  Chunker.word_count (a +:+ " " +:+ b)
  = (Chunker.word_count a + Chunker.word_count b)%Z.
Proof.
  unfold Chunker.word_count, len.
  change (" " +:+ b) with (String " "%char b).
  rewrite split_app_space by reflexivity.
  rewrite length_app. lia.
Qed.

Lemma word_count_nonneg s : (0 <= Chunker.word_count s)%Z.
Proof. unfold Chunker.word_count, len. lia. Qed.

Lemma split_word w : is_word w = true -> split w = [w].
Proof.
  unfold is_word. induction w as [|c w IH]; [done|].
  cbn [truthy no_space andb split]. intros [Hc Hw]%andb_prop.
  apply negb_true_iff in Hc. rewrite Hc.
  destruct w as [|y w]; [done|].
  cbn [at_boundary]. cbn [no_space] in Hw.
  pose proof Hw as [Hy _]%andb_prop. apply negb_true_iff in Hy. rewrite Hy.
  rewrite IH; [done|]. exact Hw.
Qed.

Lemma split_join ws :
  Forall (fun w => is_word w = true) ws -> split (join " " ws) = ws.
Proof.
  induction 1 as [|w ws Hw Hws IH]; [done|].
  cbn [join]. destruct ws as [|w' ws'].
  - by apply split_word.
  - change (" " +:+ join " " (w' :: ws')) with (String " "%char (join " " (w' :: ws'))).
    rewrite split_app_space by reflexivity.
    rewrite IH, split_word by done. done.
Qed.

Lemma split_words s : Forall (fun w => is_word w = true) (split s).
Proof.
  induction s as [|c s IH]; [constructor|].
  cbn [split]. destruct (isspace c) eqn:Hc; [done|].
  assert (Hone : is_word (String c EmptyString) = true).
  { unfold is_word. cbn. by rewrite Hc. }
  destruct (at_boundary s); [by constructor|].
  destruct (split s) as [|w ws]; [by constructor; [|constructor]|].
  inversion IH as [|? ? Hw Hws]; subst. constructor; [|done].
  unfold is_word in *. cbn [truthy no_space andb].
  rewrite Hc. cbn. by apply andb_prop in Hw as [_ ->].
Qed.

End PyFacts.

(** ** Facts about chunk_text *)

Module ChunkerFacts.
Section facts.

Variable has_tokenizer : bool.
Variable sent_tokenize : string -> result (list string).

Local Abbreviation chunk_text := (Chunker.chunk_text has_tokenizer sent_tokenize).
Local Abbreviation word_count := Chunker.word_count.

Lemma range_from_zero stop step starts :
  (0 < step)%Z -> range 0 stop step = Ok starts ->
  Forall (fun i => (0 <= i)%Z) starts.
Proof.
  intros Hstep. unfold range.
  destruct (Z.eqb_spec step 0) as [->|_]; [lia|].
  intros [= <-]. apply Forall_forall. intros i Hi.
  apply list_elem_of_In, in_map_iff in Hi as (j & <- & _). nia.
Qed.

Lemma slice_window_length {A : Type} (l : list A) (i n : Z) :
  (0 <= i)%Z -> (0 < n)%Z -> (len (slice l i (i + n)) <= n)%Z.
Proof.
  intros Hi Hn. unfold slice, slice_bound, len.
  rewrite length_take.
  destruct (Z.ltb_spec i 0), (Z.ltb_spec (i + n) 0); lia.
Qed.

Lemma slice_Forall {A : Type} (P : A -> Prop) (l : list A) (a b : Z) :
  Forall P l -> Forall P (slice l a b).
Proof. intros H. unfold slice. by apply Forall_take, Forall_drop. Qed.

(** A window of [chunk_size] words, joined by spaces, has as many words
    as the window has elements. *)
Lemma window_word_count text i n :
  (0 <= i)%Z -> (0 < n)%Z ->
  (word_count (join " " (slice (split text) i (i + n))) <= n)%Z.
Proof.
  intros Hi Hn. unfold Chunker.word_count.
  rewrite PyFacts.split_join by apply slice_Forall, PyFacts.split_words.
  by apply slice_window_length.
Qed.

(** Invariant of the sentence loop: every flushed chunk, and the buffer
    if it is flushed next, is within the bound or a single long sentence. *)
Lemma accumulate_ok cs all sents : forall chunks cur chunks' cur',
  (forall s, s ∈ sents -> s ∈ all) ->
  Forall (chunk_ok cs all) chunks ->
  chunk_ok cs all (strip cur) \/ cur = "" ->
  Chunker.accumulate cs sents chunks cur = (chunks', cur') ->
  Forall (chunk_ok cs all) chunks'
  /\ (chunk_ok cs all (strip cur') \/ cur' = "").
Proof.
  induction sents as [|sent rest IH]; intros chunks cur chunks' cur' Hall Hch Hcur.
  - cbn [Chunker.accumulate]. by intros [= <- <-].
  - cbn [Chunker.accumulate].
    assert (Hrest : forall s, s ∈ rest -> s ∈ all)
      by (intros s Hs; apply Hall; by right).
    destruct (Z.ltb_spec cs (len (split (cur +:+ " " +:+ sent)))) as [Hbig|Hfit].
    + apply IH; [done| |].
      * destruct cur as [|c cur]; cbn [truthy]; [done|].
        apply Forall_app. split; [done|]. constructor; [|done].
        by destruct Hcur.
      * left. destruct (Z.le_gt_cases (word_count sent) cs) as [Hle|Hgt].
        -- left. by rewrite PyFacts.word_count_strip.
        -- right. exists sent. split_and!; [apply Hall; by left|lia|done].
    + apply IH; [done|done|].
      left. left. by rewrite PyFacts.word_count_strip.
Qed.

(** The loop keeps every long sentence: once read it is the buffer, and
    once the buffer is replaced it has been flushed. *)
Lemma accumulate_keeps cs sents : forall chunks cur chunks' cur',
  Chunker.accumulate cs sents chunks cur = (chunks', cur') ->
  (forall c, c ∈ chunks -> c ∈ chunks')
  /\ (forall s, s ∈ sents \/ s = cur ->
        (cs < word_count s)%Z -> s <> "" -> strip s ∈ chunks' \/ cur' = s).
Proof.
  induction sents as [|sent rest IH]; intros chunks cur chunks' cur'.
  - cbn [Chunker.accumulate]. intros [= <- <-]. split; [done|].
    intros s [Hs| ->] _ _; [by apply elem_of_nil in Hs|by right].
  - cbn [Chunker.accumulate].
    destruct (Z.ltb_spec cs (len (split (cur +:+ " " +:+ sent)))) as [Hbig|Hfit];
      intros Hacc; apply IH in Hacc as [Hsub Hkeep].
    + split.
      * intros c Hc. apply Hsub. destruct (truthy cur); [|done].
        apply elem_of_app. by left.
      * intros s [Hs| ->] Hlong Hne.
        -- apply elem_of_cons in Hs as [->|Hs]; apply Hkeep; auto.
        -- left. apply Hsub. destruct cur as [|c cur]; [done|].
           cbn [truthy]. apply elem_of_app. right. by left.
    + pose proof (PyFacts.word_count_app_space cur sent) as Hsum.
      pose proof (PyFacts.word_count_nonneg cur).
      pose proof (PyFacts.word_count_nonneg sent).
      unfold Chunker.word_count in *.
      split; [done|].
      intros s [Hs| ->] Hlong Hne.
      * apply elem_of_cons in Hs as [->|Hs]; [lia|]. apply Hkeep; auto.
      * lia.
Qed.

(** [chunk_text] returns whenever the tokenizer it calls does; the
    fallback raises only for [chunk_size = 0] on a text with words. *)
Lemma chunk_text_returns (text : string) (chunk_size : Z) :
  (has_tokenizer = true -> is_ok (sent_tokenize text) = true) ->
  (has_tokenizer = false -> chunk_size <> 0%Z \/ split text = []) ->
  is_ok (chunk_text text chunk_size) = true.
Proof.
  intros Htok Hstep. unfold Chunker.chunk_text.
  destruct (Z.leb_spec (len (split text)) chunk_size) as [_|Hgt]; [done|].
  destruct has_tokenizer.
  - destruct (sent_tokenize text) as [sents|e]; [|by specialize (Htok eq_refl)].
    cbn [bind]. by destruct (Chunker.accumulate chunk_size sents [] "").
  - unfold range. destruct (Z.eqb_spec chunk_size 0) as [->|_]; [|done].
    destruct (Hstep eq_refl) as [?|Hnil]; [done|].
    rewrite Hnil in Hgt. unfold len in Hgt. cbn in Hgt. lia.
Qed.

(** C9. A text of at most [chunk_size] words is returned as the only
    chunk, unchanged. *)
Theorem chunk_text_short (text : string) (chunk_size : Z) :
  (word_count text <= chunk_size)%Z ->
  chunk_text text chunk_size = Ok [text].
Proof.
  intros Hle. unfold Chunker.chunk_text.
  destruct (Z.leb_spec (len (split text)) chunk_size) as [_|Hgt]; [done|].
  unfold Chunker.word_count in Hle. lia.
Qed.

(** C5. For a text of more than [chunk_size] words, every chunk that
    [chunk_text] returns has at most [chunk_size] words, unless it is a
    single sentence that alone has more than [chunk_size] words; and
    every such sentence is returned whole as a chunk of its own. *)
Theorem chunk_text_soft_bound (text : string) (chunk_size : Z) (chunks : list string) :
  (chunk_size < word_count text)%Z ->
  chunk_text text chunk_size = Ok chunks ->
  (forall c, c ∈ chunks ->
     (word_count c <= chunk_size)%Z
     \/ (has_tokenizer = true
         /\ exists sents s, sent_tokenize text = Ok sents /\ s ∈ sents
              /\ (chunk_size < word_count s)%Z /\ c = strip s))
  /\ (forall sents s, has_tokenizer = true -> sent_tokenize text = Ok sents ->
        s ∈ sents -> (chunk_size < word_count s)%Z -> s <> "" ->
        strip s ∈ chunks).
Proof.
  intros Hlong. unfold Chunker.chunk_text.
  destruct (Z.leb_spec (len (split text)) chunk_size) as [Hle|_];
    [unfold Chunker.word_count in Hlong; lia|].
  destruct has_tokenizer.
  - destruct (sent_tokenize text) as [sents|e] eqn:Htok; [|done].
    cbn [bind].
    destruct (Chunker.accumulate chunk_size sents [] "") as [chs cur] eqn:Hacc.
    intros [= <-].
    pose proof (accumulate_ok chunk_size sents sents [] "" chs cur
                  (fun _ H => H) (Forall_nil_2 _) (or_intror eq_refl) Hacc)
      as [Hchs Hcur].
    pose proof (accumulate_keeps chunk_size sents [] "" chs cur Hacc)
      as [_ Hkeep].
    split.
    + intros c Hc.
      assert (Hok : chunk_ok chunk_size sents c).
      { destruct cur as [|x cur]; cbn [truthy] in Hc.
        - by eapply Forall_forall in Hchs.
        - apply elem_of_app in Hc as [Hc|Hc].
          + by eapply Forall_forall in Hchs.
          + apply list_elem_of_singleton in Hc as ->. by destruct Hcur. }
      destruct Hok as [Hle|(s & Hs & Hgt & ->)]; [by left|].
      right. split; [done|]. by exists sents, s.
    + intros sents' s _ [= <-] Hs Hgt Hne.
      destruct (Hkeep s (or_introl Hs) Hgt Hne) as [Hin| ->].
      * destruct (truthy cur); [|done]. apply elem_of_app. by left.
      * destruct s as [|x s]; [done|]. cbn [truthy].
        apply elem_of_app. right. by left.
  - destruct (range 0 (len (split text)) chunk_size) as [starts|e] eqn:Hrange;
      [|done].
    cbn [bind]. intros [= <-]. split; [|done].
    intros c Hc. left.
    apply list_elem_of_fmap in Hc as (i & -> & Hi).
    destruct (Z.lt_trichotomy chunk_size 0) as [Hneg|[->|Hpos]].
    + unfold range in Hrange.
      destruct (Z.eqb_spec chunk_size 0); [lia|].
      destruct (Z.ltb_spec 0 chunk_size); [lia|].
      injection Hrange as <-.
      assert (Hcount : ((0 - len (split text) - chunk_size - 1) / - chunk_size < 1)%Z)
        by (apply Z.div_lt_upper_bound; unfold len; lia).
      replace (Z.to_nat _) with 0%nat in Hi by lia.
      by apply elem_of_nil in Hi.
    + done.
    + eapply Forall_forall in Hi; [|by eapply range_from_zero].
      by apply window_word_count.
Qed.

End facts.

(** C9 at a three-word text and the default [chunk_size]. *)
Lemma chunk_text_short_witness :
  (Chunker.word_count "one two three" <= 500)%Z
  /\ Chunker.chunk_text true Demo.sent_tokenize "one two three" 500
     = Ok ["one two three"].
Proof.
  split; [by vm_compute|].
  apply (chunk_text_short true Demo.sent_tokenize "one two three" 500).
  by vm_compute.
Defined.

(** C5 at [Demo.book] with three words per chunk: the four-word first
    sentence is a chunk of its own, the other chunks hold at most three
    words. *)
Lemma chunk_text_soft_bound_witness :
  (forall c, c ∈ ["One two three four."; "Five six. Seven."; "Eight nine ten."] ->
     (Chunker.word_count c <= 3)%Z
     \/ (true = true
         /\ exists sents s, Demo.sent_tokenize Demo.book = Ok sents /\ s ∈ sents
              /\ (3 < Chunker.word_count s)%Z /\ c = strip s))
  /\ (forall sents s, true = true -> Demo.sent_tokenize Demo.book = Ok sents ->
        s ∈ sents -> (3 < Chunker.word_count s)%Z -> s <> "" ->
        strip s ∈ ["One two three four."; "Five six. Seven."; "Eight nine ten."]).
Proof.
  apply (chunk_text_soft_bound true Demo.sent_tokenize Demo.book 3
           ["One two three four."; "Five six. Seven."; "Eight nine ten."]).
  - by vm_compute.
  - by vm_compute.
Defined.

End ChunkerFacts.

(** ** Facts about the flat index *)

Module FaissFacts.

Lemma insert_hit_perm h l : Faiss.insert_hit h l ≡ₚ h :: l.
Proof.
  induction l as [|h' l IH]; cbn [Faiss.insert_hit]; [done|].
  destruct (Qle_bool (snd h') (snd h)); [|done].
  rewrite IH. apply Permutation_swap.
Qed.

Lemma nearest_perm q xs :
  Faiss.nearest q xs ≡ₚ imap (fun i x => (Z.of_nat i, Faiss.l2sqr q x)) xs.
Proof.
  unfold Faiss.nearest.
  generalize (imap (fun i x => (Z.of_nat i, Faiss.l2sqr q x)) xs) as l.
  induction l as [|h l IH]; cbn [fold_right]; [done|].
  rewrite insert_hit_perm. by constructor.
Qed.

Lemma square_nonneg (a : Q) : (0 <= a * a)%Q.
Proof. destruct a as [n d]. unfold Qle, Qmult. cbn. nia. Qed.

Lemma l2sqr_nonneg x y : (0 <= Faiss.l2sqr x y)%Q.
Proof.
  unfold Faiss.l2sqr. revert y.
  induction x as [|a x IH]; intros [|b y]; cbn; try done.
  exact (Qplus_le_compat 0 _ 0 _ (square_nonneg _) (IH _)).
Qed.

(** Every entry of the ranking is a stored vector with its squared
    distance, which is non-negative. *)
Lemma nearest_in_bounds q xs :
  Forall (fun h : Z * Q => (0 <= h.1 < len xs)%Z /\ (0 <= h.2)%Q)
    (Faiss.nearest q xs).
Proof.
  rewrite nearest_perm. apply Forall_forall. intros [idx dist] Hin.
  apply list_elem_of_lookup_1 in Hin as [i Hi].
  rewrite list_lookup_imap in Hi.
  destruct (xs !! i) as [x|] eqn:Hx; [|done].
  injection Hi as <- <-. apply lookup_lt_Some in Hx. cbn [fst snd].
  split; [unfold len; lia|apply l2sqr_nonneg].
Qed.

(** The contract of the index in the case the store relies on: asked
    for no more neighbours than it holds, it returns one row of exactly
    [k] in-bounds labels with non-negative distances. *)
Lemma search_contract ix q k :
  (0 < k <= Faiss.ntotal ix)%Z ->
  exists labels dists,
    Faiss.search ix [q] k = Ok ([dists], [labels])
    /\ length labels = Z.to_nat k /\ length dists = Z.to_nat k
    /\ Forall (fun idx => (0 <= idx < Faiss.ntotal ix)%Z) labels
    /\ Forall (fun dist => (0 <= dist)%Q) dists.
Proof.
  unfold Faiss.ntotal. intros Hk.
  pose proof (nearest_in_bounds q (Faiss.xb ix)) as Hall.
  pose proof (Permutation_length (nearest_perm q (Faiss.xb ix))) as Hlen.
  rewrite length_imap in Hlen.
  assert (Hfound : length (take (Z.to_nat k) (Faiss.nearest q (Faiss.xb ix)))
                   = Z.to_nat k).
  { rewrite length_take. unfold len in Hk. lia. }
  unfold Faiss.search, Faiss.search_row.
  destruct (Z.leb_spec k 0); [lia|].
  cbn [map]. cbv zeta.
  rewrite Hfound, Nat.sub_diag. cbn [replicate]. rewrite app_nil_r.
  eexists _, _. split; [done|].
  rewrite !length_map, Hfound. split_and!; [done|done| |].
  - apply Forall_fmap, Forall_take. eapply Forall_impl; [done|].
    by intros h [? _].
  - apply Forall_fmap, Forall_take. eapply Forall_impl; [done|].
    by intros h [_ ?].
Qed.

End FaissFacts.

(** ** Facts about VectorStore *)

Module VectorStoreFacts.
Section facts.

Variable dim : Z.
Variable encode : list string -> list Faiss.vector.
Variable index_search :
  Faiss.Index -> list Faiss.vector -> Z -> result (list (list Q) * list (list Z)).

Local Abbreviation __init__ := (VectorStore.__init__ dim).
Local Abbreviation add_texts := (VectorStore.add_texts encode).
Local Abbreviation search := (VectorStore.search encode index_search).

Lemma init_total (fs : gmap string FS.file) (ip mp : string) :
  exists self, __init__ fs ip mp = Ok self.
Proof.
  unfold VectorStore.__init__, VectorStore._load_index, VectorStore.try_except.
  destruct (FS.path_exists fs ip && FS.path_exists fs mp); [|eauto].
  destruct (FS.read_index fs ip); [|cbn; eauto].
  destruct (FS.np_load fs mp); cbn; eauto.
Qed.

Lemma init_paths (fs : gmap string FS.file) (ip mp : string) self :
  __init__ fs ip mp = Ok self ->
  VectorStore.index_path self = ip /\ VectorStore.meta_path self = mp.
Proof.
  unfold VectorStore.__init__, VectorStore._load_index, VectorStore.try_except.
  destruct (FS.path_exists fs ip && FS.path_exists fs mp);
    [|by intros [= <-]].
  destruct (FS.read_index fs ip); [|by intros [= <-]].
  destruct (FS.np_load fs mp); by intros [= <-].
Qed.

(** C8. When an artifact file is absent, or reading either artifact
    fails, constructing a store raises nothing and yields the empty
    store: no vector in the index, no record in the metadata. *)
Theorem load_failure_starts_empty (fs : gmap string FS.file) (ip mp : string) :
  FS.path_exists fs ip = false
  \/ FS.path_exists fs mp = false
  \/ (exists e, FS.read_index fs ip = Raise e)
  \/ (exists e, FS.np_load fs mp = Raise e) ->
  __init__ fs ip mp = Ok (VectorStore.empty dim ip mp)
  /\ Faiss.ntotal (VectorStore.index (VectorStore.empty dim ip mp)) = 0%Z
  /\ VectorStore.metadata (VectorStore.empty dim ip mp) = [].
Proof.
  unfold VectorStore.__init__, VectorStore._load_index, VectorStore.try_except.
  intros Hfail. split; [|done].
  destruct (FS.path_exists fs ip) eqn:Hip, (FS.path_exists fs mp) eqn:Hmp;
    cbn [andb]; try done.
  destruct Hfail as [?|[?|[[e He]|[e He]]]]; try done.
  - by rewrite He.
  - rewrite He. by destruct (FS.read_index fs ip).
Qed.

(** C2. [add_texts] keeps the vector count equal to the record count and
    appends the new vectors and the new records, both in input order,
    after the old ones: position by position they stay aligned. *)
Theorem add_texts_invariant (self : VectorStore.t) (fs : gmap string FS.file)
    (texts : list string) (meta : list (gmap string string)) :
  counts_agree self ->
  length texts = length meta ->
  length (encode texts) = length texts ->
  let self' := (add_texts self fs texts meta).1 in
  let n := length (VectorStore.metadata self) in
  counts_agree self'
  /\ Faiss.xb (VectorStore.index self')
     = Faiss.xb (VectorStore.index self) ++ encode texts
  /\ VectorStore.metadata self' = VectorStore.metadata self ++ meta
  /\ (forall i, (i < n)%nat ->
        Faiss.xb (VectorStore.index self') !! i
        = Faiss.xb (VectorStore.index self) !! i
        /\ VectorStore.metadata self' !! i = VectorStore.metadata self !! i)
  /\ (forall i, (i < length texts)%nat ->
        Faiss.xb (VectorStore.index self') !! (n + i)%nat = encode texts !! i
        /\ VectorStore.metadata self' !! (n + i)%nat = meta !! i).
Proof.
  unfold counts_agree, Faiss.ntotal, len. intros Hinv Hlen Henc.
  assert (Hn : length (Faiss.xb (VectorStore.index self))
               = length (VectorStore.metadata self)) by lia.
  assert (Happ : Faiss.xb (VectorStore.index (add_texts self fs texts meta).1)
                 = Faiss.xb (VectorStore.index self) ++ encode texts
                 /\ VectorStore.metadata (add_texts self fs texts meta).1
                    = VectorStore.metadata self ++ meta).
  { unfold VectorStore.add_texts. destruct texts as [|t texts].
    - destruct meta; [|done]. destruct (encode []); [|done].
      cbn. by rewrite !app_nil_r.
    - done. }
  destruct Happ as [Hxb Hmd]. cbn zeta. rewrite Hxb, Hmd.
  split_and!; [|done|done| |].
  - rewrite !length_app. lia.
  - intros i Hi. rewrite !lookup_app_l by lia. done.
  - intros i Hi. rewrite <- Hn at 1.
    rewrite !lookup_app_r by lia.
    split; f_equal; lia.
Qed.


(** Saving and constructing again gives the store back, provided the
    two paths differ and the metadata path carries numpy's extension. *)
Lemma save_then_load (self : VectorStore.t) (fs : gmap string FS.file) :
  VectorStore.index_path self <> VectorStore.meta_path self ->
  FS.endswith (VectorStore.meta_path self) ".npy" = true ->
  __init__ (VectorStore.save self fs)
    (VectorStore.index_path self) (VectorStore.meta_path self) = Ok self.
Proof.
  destruct self as [ip mp ix md]. cbn [VectorStore.index_path VectorStore.meta_path].
  intros Hne Hext.
  unfold VectorStore.__init__, VectorStore._load_index, VectorStore.save,
    FS.np_save, FS.write_index, FS.path_exists, FS.read_index, FS.np_load.
  cbn [VectorStore.index_path VectorStore.meta_path VectorStore.index
       VectorStore.metadata].
  rewrite Hext.
  rewrite lookup_insert_ne, !lookup_insert_eq by done.
  done.
Qed.

Lemma add_texts_reload (self : VectorStore.t) (fs : gmap string FS.file)
    (texts : list string) (meta : list (gmap string string)) :
  VectorStore.index_path self <> VectorStore.meta_path self ->
  FS.endswith (VectorStore.meta_path self) ".npy" = true ->
  __init__ fs (VectorStore.index_path self) (VectorStore.meta_path self) = Ok self ->
  let '(self', fs') := add_texts self fs texts meta in
  VectorStore.index_path self' = VectorStore.index_path self
  /\ VectorStore.meta_path self' = VectorStore.meta_path self
  /\ __init__ fs' (VectorStore.index_path self) (VectorStore.meta_path self) = Ok self'.
Proof.
  intros Hne Hext Hload. unfold VectorStore.add_texts.
  destruct texts as [|t texts]; [done|].
  split_and!; [done|done|].
  by apply (save_then_load (VectorStore.mkStore _ _ _ _)).
Qed.

(** What is on disk after a run of [add_texts] calls is the store in
    memory. *)
Lemma add_batches_reload batches : forall (self : VectorStore.t) fs self' fs',
  VectorStore.index_path self <> VectorStore.meta_path self ->
  FS.endswith (VectorStore.meta_path self) ".npy" = true ->
  __init__ fs (VectorStore.index_path self) (VectorStore.meta_path self) = Ok self ->
  add_batches encode self fs batches = (self', fs') ->
  __init__ fs' (VectorStore.index_path self) (VectorStore.meta_path self) = Ok self'.
Proof.
  induction batches as [|[texts meta] rest IH]; intros self fs self' fs' Hne Hext Hload.
  - cbn. by intros [= <- <-].
  - cbn [add_batches].
    pose proof (add_texts_reload self fs texts meta Hne Hext Hload) as Hstep.
    destruct (add_texts self fs texts meta) as [self1 fs1].
    destruct Hstep as (Hip & Hmp & Hload1). rewrite <- Hip, <- Hmp in *.
    by apply IH.
Qed.

Lemma add_batches_contents batches : forall (self : VectorStore.t) fs,
  Forall (fun b => length b.1 = length b.2
                   /\ length (encode b.1) = length b.1) batches ->
  let self' := (add_batches encode self fs batches).1 in
  Faiss.xb (VectorStore.index self')
  = Faiss.xb (VectorStore.index self) ++ concat (map (fun b => encode b.1) batches)
  /\ VectorStore.metadata self'
     = VectorStore.metadata self ++ concat (map snd batches).
Proof.
  induction batches as [|[texts meta] rest IH]; intros self fs Hb.
  - cbn. by rewrite !app_nil_r.
  - inversion Hb as [|? ? [Hlen Henc] Hrest]; subst. cbn [fst snd] in *.
    cbn [add_batches map concat].
    specialize (IH (add_texts self fs texts meta).1
                   (add_texts self fs texts meta).2 Hrest).
    destruct (add_texts self fs texts meta) as [self1 fs1] eqn:Hadd.
    cbn [fst snd] in IH. cbn zeta in *.
    destruct IH as [-> ->].
    unfold VectorStore.add_texts in Hadd. destruct texts as [|t texts].
    + injection Hadd as <- <-. cbn [fst snd].
      destruct meta; [|done]. destruct (encode []); [|done]. done.
    + injection Hadd as <- <-. cbn. by rewrite <- !app_assoc.
Qed.

(** Round trip: a store that starts empty over two distinct paths, the
    metadata path ending in [.npy], is read back from disk with all the
    records added to it, in order, and as many vectors. *)
Lemma reload_roundtrip (fs : gmap string FS.file) (ip mp : string)
    (batches : list (list string * list (gmap string string))) :
  ip <> mp ->
  FS.endswith mp ".npy" = true ->
  __init__ fs ip mp = Ok (VectorStore.empty dim ip mp) ->
  Forall (fun b => length b.1 = length b.2
                   /\ length (encode b.1) = length b.1) batches ->
  exists self,
    reload_after dim encode fs ip mp batches = Ok self
    /\ VectorStore.metadata self = concat (map snd batches)
    /\ Faiss.ntotal (VectorStore.index self) = len (concat (map snd batches)).
Proof.
  intros Hne Hext Hload Hb. unfold reload_after. rewrite Hload. cbn [bind].
  pose proof (add_batches_contents batches (VectorStore.empty dim ip mp) fs Hb)
    as [Hxb Hmd].
  destruct (add_batches encode (VectorStore.empty dim ip mp) fs batches)
    as [self fs'] eqn:Hrun.
  exists self. cbn [fst] in *. split_and!.
  - by apply (add_batches_reload batches (VectorStore.empty dim ip mp) fs).
  - by rewrite Hmd.
  - unfold Faiss.ntotal, len. rewrite Hxb. cbn [app VectorStore.empty
      VectorStore.index VectorStore.metadata Faiss.xb Faiss.IndexFlatL2].
    f_equal. clear -Hb. induction Hb as [|[texts meta] rest [Hl He] _ IH];
      [done|]. cbn [map concat fst snd] in *. rewrite !length_app. lia.
Qed.


Lemma getitem_in_bounds {A : Type} (l : list A) (i : Z) :
  (0 <= i < len l)%Z ->
  exists x, l !! Z.to_nat i = Some x /\ getitem l i = Ok x.
Proof.
  unfold len. intros Hi.
  destruct (lookup_lt_is_Some_2 l (Z.to_nat i)) as [x Hx]; [lia|].
  exists x. split; [done|]. unfold getitem.
  assert (Hlt : (i <? 0)%Z = false) by lia.
  by rewrite !Hlt, Hx.
Qed.

(** A hit at or past the end of the metadata is skipped. *)
Lemma collect_skips md idx dist rest acc :
  (len md <= idx)%Z ->
  VectorStore.collect md ((idx, dist) :: rest) acc = VectorStore.collect md rest acc.
Proof.
  intros Hge. cbn [VectorStore.collect].
  destruct (Z.ltb_spec idx (len md)); [lia|done].
Qed.

(** In-bounds hits on records that carry a text yield one tuple each,
    in the order of the hits. *)
Lemma collect_in_bounds md : forall hits acc,
  Forall has_text md ->
  Forall (fun h : Z * Q => (0 <= h.1 < len md)%Z) hits ->
  exists out, VectorStore.collect md hits acc = Ok (acc ++ out)
              /\ Forall2 (hit_result md) hits out.
Proof.
  induction hits as [|[idx dist] rest IH]; intros acc Hmd Hhits.
  - exists []. cbn. by rewrite app_nil_r.
  - inversion Hhits as [|? ? Hidx Hrest]; subst. cbn [fst] in Hidx.
    cbn [VectorStore.collect].
    destruct (Z.ltb_spec idx (len md)); [|lia].
    destruct (getitem_in_bounds md idx Hidx) as (record & Hlook & ->).
    cbn [bind].
    assert (Htext : has_text record).
    { eapply Forall_forall in Hmd; [done|]. by eapply list_elem_of_lookup_2. }
    destruct Htext as [text Htext].
    unfold dict_getitem. rewrite Htext. cbn [bind].
    destruct (IH (acc ++ [(text, record, dist)]) Hmd Hrest) as (out & -> & Hout).
    exists ((text, record, dist) :: out). split.
    + by rewrite <- app_assoc.
    + constructor; [|done]. by exists record, text.
Qed.

(** Past the empty-index test, [search] runs its loop over the first
    row of labels zipped with the first row of distances. *)
Lemma search_first_row (self : VectorStore.t) (query : string) (top_k : Z)
    (labels : list Z) (dists : list Q) :
  Faiss.ntotal (VectorStore.index self) <> 0%Z ->
  index_search (VectorStore.index self) (encode [query]) top_k
  = Ok ([dists], [labels]) ->
  search self query top_k
  = VectorStore.collect (VectorStore.metadata self) (zip labels dists) [].
Proof.
  intros Hpos Hs. unfold VectorStore.search.
  destruct (Z.eqb_spec (Faiss.ntotal (VectorStore.index self)) 0); [done|].
  by rewrite Hs.
Qed.

(** What [search] returns when the index keeps its contract: on a store
    whose index holds as many vectors as it has records, at least [k] of
    them, a search with [top_k = k] for which the nearest-neighbour search
    returns its [k] in-bounds labels with non-negative distances returns
    exactly [k] tuples: the text and the record at each label, with its
    distance, which is non-negative. *)
Lemma search_of_contract (self : VectorStore.t) (query : string) (k : nat)
    (labels : list Z) (dists : list Q) :
  counts_agree self ->
  (Z.of_nat k <= len (VectorStore.metadata self))%Z ->
  Forall has_text (VectorStore.metadata self) ->
  (Faiss.ntotal (VectorStore.index self) <> 0%Z ->
     index_search (VectorStore.index self) (encode [query]) (Z.of_nat k)
     = Ok ([dists], [labels])
     /\ length labels = k /\ length dists = k
     /\ Forall (fun idx => (0 <= idx < Faiss.ntotal (VectorStore.index self))%Z) labels
     /\ Forall (fun dist => (0 <= dist)%Q) dists) ->
  exists results,
    search self query (Z.of_nat k) = Ok results
    /\ length results = k
    /\ Forall (fun res : string * gmap string string * Q =>
                 (exists idx, hit_result (VectorStore.metadata self) (idx, res.2) res)
                 /\ (0 <= res.2)%Q) results.
Proof.
  unfold counts_agree. intros Hcount Hk Htext Hnn.
  destruct (Z.eq_dec (Faiss.ntotal (VectorStore.index self)) 0%Z) as [Hzero|Hpos].
  - exists []. unfold VectorStore.search. rewrite Hzero.
    split_and!; [done| |done].
    rewrite Hzero in Hcount. cbn. lia.
  - destruct (Hnn Hpos) as (Hs & Hll & Hld & Hin & Hnonneg).
    rewrite (search_first_row _ _ _ _ _ Hpos Hs).
    destruct (collect_in_bounds (VectorStore.metadata self) (zip labels dists) []
                Htext) as (out & -> & Hout).
    { apply Forall_forall. intros [idx dist] Hhit. cbn [fst].
      apply elem_of_zip_l in Hhit. eapply Forall_forall in Hin; [|done].
      by rewrite <- Hcount. }
    exists out. cbn [app]. split_and!; [done| |].
    + apply Forall2_length in Hout. rewrite <- Hout, length_zip. lia.
    + apply Forall_forall. intros res Hres.
      apply list_elem_of_lookup_1 in Hres as [i Hi].
      destruct (Forall2_lookup_r _ _ _ _ _ Hout Hi) as ([idx dist] & Hhit & Hres).
      pose proof Hres as (record & text & _ & _ & _ & ->). cbn [snd].
      split; [by exists idx|].
      apply list_elem_of_lookup_2, elem_of_zip_r in Hhit.
      by eapply Forall_forall in Hnonneg.
Qed.

End facts.

(** The flat index asked for [0 < k <= ntotal] neighbours keeps the
    loop of [search] within the metadata: every hit yields its tuple. *)
Lemma search_flat_in_bounds (encode : list string -> list Faiss.vector)
    (self : VectorStore.t) (query : string) (k : Z) (q : Faiss.vector) :
  encode [query] = [q] ->
  counts_agree self ->
  (0 < k <= len (VectorStore.metadata self))%Z ->
  Forall has_text (VectorStore.metadata self) ->
  exists labels dists results,
    Faiss.search (VectorStore.index self) [q] k = Ok ([dists], [labels])
    /\ VectorStore.search encode Faiss.search self query k = Ok results
    /\ Forall2 (hit_result (VectorStore.metadata self)) (zip labels dists) results
    /\ length results = Z.to_nat k.
Proof.
  unfold counts_agree. intros Henc Hcount Hk Htext.
  destruct (FaissFacts.search_contract (VectorStore.index self) q k)
    as (labels & dists & Hs & Hl & Hd & Hin & _); [lia|].
  destruct (collect_in_bounds (VectorStore.metadata self) (zip labels dists) []
              Htext) as (out & Hcollect & Hout).
  { apply Forall_forall. intros [idx dist] Hhit. cbn [fst].
    apply elem_of_zip_l in Hhit. eapply Forall_forall in Hin; [|done].
    by rewrite <- Hcount. }
  exists labels, dists, out. split_and!; [done| |done|].
  - rewrite (search_first_row encode Faiss.search self query k labels dists);
      [done|lia|by rewrite Henc].
  - apply Forall2_length in Hout. rewrite <- Hout, length_zip. lia.
Qed.

(** C1. Violated at label [-1], the label the flat index reports for a
    missing neighbour: on a store of one chunk searched with
    [top_k = 2] the hit [-1] is not skipped but read as [metadata[-1]],
    so the only record is returned twice; and when the index holds one
    vector and the metadata none, the same hit makes [search] raise
    [IndexError]. *)
Theorem search_negative_label :
  Faiss.search (VectorStore.index (Demo.store [Demo.record "a.txt" "alpha"] ["alpha"]))
    (Demo.encode ["abc"]) 2
  = Ok ([[4%Q; Faiss.FLT_MAX]], [[0%Z; (-1)%Z]])
  /\ VectorStore.search Demo.encode Faiss.search
       (Demo.store [Demo.record "a.txt" "alpha"] ["alpha"]) "abc" 2
     = Ok [("alpha", Demo.record "a.txt" "alpha", 4%Q);
           ("alpha", Demo.record "a.txt" "alpha", Faiss.FLT_MAX)]
  /\ VectorStore.search Demo.encode Faiss.search (Demo.store [] ["alpha"]) "abc" 2
     = Raise IndexError.
Proof. split_and!; reflexivity. Qed.

(** C3. Violated when the metadata path does not end in [.npy]: the
    records are saved under the path with the extension appended, the
    fresh store looks for the path as given, finds no metadata artifact
    and starts empty, although one pair was added. Over [meta.npy] the
    same run reads the pair back. *)
Theorem reload_without_npy_extension :
  reload_after 1 Demo.encode ∅ "faiss.index" "meta"
    [(["alpha"], [Demo.record "a.txt" "alpha"])]
  = Ok (VectorStore.empty 1 "faiss.index" "meta")
  /\ reload_after 1 Demo.encode ∅ "faiss.index" "meta.npy"
       [(["alpha"], [Demo.record "a.txt" "alpha"])]
     = Ok (Demo.store [Demo.record "a.txt" "alpha"] ["alpha"]).
Proof. split; by vm_compute. Qed.

(** C8 on a directory that holds the index artifact only. *)
Lemma load_failure_starts_empty_witness :
  VectorStore.__init__ 1 {[ "faiss.index" := FS.IndexFile (Faiss.IndexFlatL2 1) ]}
    "faiss.index" "meta.npy"
  = Ok (VectorStore.empty 1 "faiss.index" "meta.npy").
Proof.
  apply (load_failure_starts_empty 1
           {[ "faiss.index" := FS.IndexFile (Faiss.IndexFlatL2 1) ]}
           "faiss.index" "meta.npy").
  right. left. by vm_compute.
Defined.

(** C2 on the three-chunk store, adding a fourth chunk. *)
Lemma add_texts_invariant_witness :
  counts_agree
    (VectorStore.add_texts Demo.encode Demo.library ∅
       ["delta"] [Demo.record "c.txt" "delta"]).1.
Proof.
  apply (add_texts_invariant Demo.encode Demo.library ∅
           ["delta"] [Demo.record "c.txt" "delta"]).
  - by vm_compute.
  - reflexivity.
  - reflexivity.
Defined.

(** The three-chunk store with [top_k = 2]: the two nearest chunks of a
    three-letter query are the second and the first. *)
Lemma search_of_contract_example :
  exists results,
    VectorStore.search Demo.encode Faiss.search Demo.library "abc" 2 = Ok results
    /\ length results = 2%nat
    /\ Forall (fun res : string * gmap string string * Q =>
                 (exists idx,
                    hit_result (VectorStore.metadata Demo.library) (idx, res.2) res)
                 /\ (0 <= res.2)%Q) results.
Proof.
  apply (search_of_contract Demo.encode Faiss.search Demo.library "abc" 2
           [1%Z; 0%Z] [1%Q; 4%Q]).
  - by vm_compute.
  - by vm_compute.
  - repeat constructor; eexists; by vm_compute.
  - intros _. split_and!.
    + by vm_compute.
    + reflexivity.
    + reflexivity.
    + repeat constructor; by vm_compute.
    + repeat constructor; by vm_compute.
Qed.

End VectorStoreFacts.

(** ** Facts about QASystem *)

Module QASystemFacts.

(** [max_from] returns the first element of greatest key: everything
    before it is strictly smaller, everything after it is at most equal. *)
Lemma max_from_first {A : Type} (key : A -> Q) : forall l best pre mid,
  (forall c, c ∈ pre -> (key c < key best)%Q) ->
  (forall c, c ∈ mid -> (key c <= key best)%Q) ->
  exists pre' post,
    pre ++ best :: mid ++ l = pre' ++ max_from key best l :: post
    /\ (forall c, c ∈ pre' -> (key c < key (max_from key best l))%Q)
    /\ (forall c, c ∈ post -> (key c <= key (max_from key best l))%Q).
Proof.
  induction l as [|x l IH]; intros best pre mid Hpre Hmid.
  - exists pre, mid. by rewrite app_nil_r.
  - cbn [max_from].
    assert (Hkeep : (key x <= key best)%Q ->
      exists pre' post,
        pre ++ best :: mid ++ x :: l = pre' ++ max_from key best l :: post
        /\ (forall c, c ∈ pre' -> (key c < key (max_from key best l))%Q)
        /\ (forall c, c ∈ post -> (key c <= key (max_from key best l))%Q)).
    { intros Hle.
      destruct (IH best pre (mid ++ [x])) as (pre' & post & Heq & H1 & H2);
        [done| |].
      - intros c [Hc|Hc]%elem_of_app; [auto|].
        by apply list_elem_of_singleton in Hc as ->.
      - exists pre', post. by rewrite <- Heq, <- app_assoc. }
    destruct (key x ?= key best)%Q eqn:Hcmp.
    + apply Hkeep, Qle_alt. congruence.
    + apply Hkeep, Qle_alt. congruence.
    + apply Qgt_alt in Hcmp.
      destruct (IH x (pre ++ best :: mid) []) as (pre' & post & Heq & H1 & H2).
      * intros c [Hc|Hc]%elem_of_app; [by eapply Qlt_trans; eauto|].
        apply elem_of_cons in Hc as [->|Hc]; [done|].
        by eapply Qle_lt_trans; eauto.
      * intros c Hc. by apply elem_of_nil in Hc.
      * exists pre', post. by rewrite <- Heq, <- app_assoc.
Qed.

Section facts.

Variable encode : list string -> list Faiss.vector.
Variable index_search :
  Faiss.Index -> list Faiss.vector -> Z -> result (list (list Q) * list (list Z)).
Variable qa_pipeline : string -> string -> result QASystem.output.

Local Abbreviation search := (VectorStore.search encode index_search).
Local Abbreviation extract := (QASystem.extract qa_pipeline).
Local Abbreviation answer_question :=
  (QASystem.answer_question encode index_search qa_pipeline).

(** What [answer_question] returns on a non-empty retrieval. *)
Lemma answer_question_nonempty vs question top_k r rs :
  search vs question top_k = Ok (r :: rs) ->
  answer_question vs question top_k
  = Ok {| QASystem.best_answer :=
            Some (max_from QASystem.score (extract question r)
                    (map (extract question) rs));
          QASystem.all_answers := map (extract question) (r :: rs);
          QASystem.message := None |}.
Proof. intros Hs. unfold QASystem.answer_question. by rewrite Hs. Qed.

Lemma extract_keeps_context question ctx m dist :
  QASystem.context (extract question (ctx, m, dist)) = ctx
  /\ QASystem.meta (extract question (ctx, m, dist)) = m.
Proof. unfold QASystem.extract. by destruct (qa_pipeline question ctx). Qed.

(** C6. On a non-empty retrieval [best_answer] is the first candidate
    of maximal score, and [all_answers] lists one candidate per
    retrieved context, in retrieval order. *)
Theorem answer_question_best (vs : VectorStore.t) (question : string) (top_k : Z)
    (results : list (string * gmap string string * Q)) :
  search vs question top_k = Ok results ->
  results <> [] ->
  exists best pre post,
    answer_question vs question top_k
    = Ok {| QASystem.best_answer := Some best;
            QASystem.all_answers := pre ++ best :: post;
            QASystem.message := None |}
    /\ pre ++ best :: post = map (extract question) results
    /\ Forall2 (fun r c => QASystem.context c = r.1.1 /\ QASystem.meta c = r.1.2)
         results (pre ++ best :: post)
    /\ (forall c, c ∈ pre -> (QASystem.score c < QASystem.score best)%Q)
    /\ (forall c, c ∈ post -> (QASystem.score c <= QASystem.score best)%Q).
Proof.
  intros Hs Hne. destruct results as [|r rs]; [done|].
  rewrite (answer_question_nonempty _ _ _ _ _ Hs).
  destruct (max_from_first QASystem.score (map (extract question) rs)
              (extract question r) [] [])
    as (pre & post & Heq & Hpre & Hpost);
    [by intros c Hc; apply elem_of_nil in Hc..|].
  cbn [app] in Heq.
  exists (max_from QASystem.score (extract question r) (map (extract question) rs)),
    pre, post.
  cbn [map]. rewrite <- Heq. split_and!; [done|done| |done|done].
  change (extract question r :: map (extract question) rs)
    with (map (extract question) (r :: rs)).
  apply Forall2_fmap_r, Forall_Forall2_diag, Forall_forall.
  intros [[ctx m] dist] _. apply extract_keeps_context.
Qed.

(** C7. Whenever the retrieval itself succeeds, [answer_question]
    returns one candidate per retrieved context; at each context on
    which the pipeline raises, the candidate has an empty answer, score
    zero, and the error's text in its [error] field. *)
Theorem answer_question_isolates_failure (vs : VectorStore.t) (question : string)
    (top_k : Z) (results : list (string * gmap string string * Q)) :
  search vs question top_k = Ok results ->
  exists reply,
    answer_question vs question top_k = Ok reply
    /\ length (QASystem.all_answers reply) = length results
    /\ forall i ctx m dist e,
         results !! i = Some (ctx, m, dist) ->
         qa_pipeline question ctx = Raise e ->
         QASystem.all_answers reply !! i
         = Some {| QASystem.answer := ""; QASystem.score := 0%Q;
                   QASystem.context := ctx; QASystem.meta := m;
                   QASystem.error := Some (str_of_exn e) |}.
Proof.
  intros Hs. destruct results as [|r rs].
  - unfold QASystem.answer_question. rewrite Hs. cbn [bind].
    eexists. split_and!; [done|done|]. intros i ? ? ? ? Hi.
    by rewrite lookup_nil in Hi.
  - rewrite (answer_question_nonempty _ _ _ _ _ Hs).
    eexists. split; [done|]. cbn [QASystem.all_answers]. split.
    + by rewrite length_map.
    + intros i ctx m dist e Hi He. rewrite list_lookup_fmap, Hi. cbn.
      unfold QASystem.extract. by rewrite He.
Qed.

(** C10. On a non-empty retrieval [all_answers] is non-empty and
    [best_answer] is one of its elements. *)
Theorem best_answer_is_candidate (vs : VectorStore.t) (question : string)
    (top_k : Z) (results : list (string * gmap string string * Q)) :
  search vs question top_k = Ok results ->
  results <> [] ->
  exists reply best,
    answer_question vs question top_k = Ok reply
    /\ QASystem.best_answer reply = Some best
    /\ best ∈ QASystem.all_answers reply
    /\ QASystem.all_answers reply <> [].
Proof.
  intros Hs Hne. destruct results as [|r rs]; [done|].
  rewrite (answer_question_nonempty _ _ _ _ _ Hs).
  destruct (max_from_first QASystem.score (map (extract question) rs)
              (extract question r) [] [])
    as (pre & post & Heq & _ & _);
    [by intros c Hc; apply elem_of_nil in Hc..|].
  cbn [app] in Heq.
  eexists _, _. split_and!; [done|done| |done].
  cbn [QASystem.all_answers map]. rewrite Heq.
  apply elem_of_app. right. by left.
Qed.

End facts.

(** C6 on the three-chunk store with scores 0.2, 0.9 and 0.5 in retrieval
    order: the best answer is the second candidate. *)
Lemma answer_question_best_witness :
  exists best pre post,
    QASystem.answer_question Demo.encode Faiss.search Demo.scored_pipeline
      Demo.library "abc" 3
    = Ok {| QASystem.best_answer := Some best;
            QASystem.all_answers := pre ++ best :: post;
            QASystem.message := None |}
    /\ pre ++ best :: post
       = map (QASystem.extract Demo.scored_pipeline "abc") Demo.retrieved
    /\ Forall2 (fun r c => QASystem.context c = r.1.1 /\ QASystem.meta c = r.1.2)
         Demo.retrieved (pre ++ best :: post)
    /\ (forall c, c ∈ pre -> (QASystem.score c < QASystem.score best)%Q)
    /\ (forall c, c ∈ post -> (QASystem.score c <= QASystem.score best)%Q).
Proof.
  apply (answer_question_best Demo.encode Faiss.search Demo.scored_pipeline
           Demo.library "abc" 3 Demo.retrieved).
  - reflexivity.
  - discriminate.
Defined.

(** C7 on the three-chunk store with a pipeline that fails on the first
    retrieved context. *)
Lemma answer_question_isolates_failure_witness :
  exists reply,
    QASystem.answer_question Demo.encode Faiss.search Demo.qa_pipeline
      Demo.library "abc" 3 = Ok reply
    /\ length (QASystem.all_answers reply) = length Demo.retrieved
    /\ forall i ctx m dist e,
         Demo.retrieved !! i = Some (ctx, m, dist) ->
         Demo.qa_pipeline "abc" ctx = Raise e ->
         QASystem.all_answers reply !! i
         = Some {| QASystem.answer := ""; QASystem.score := 0%Q;
                   QASystem.context := ctx; QASystem.meta := m;
                   QASystem.error := Some (str_of_exn e) |}.
Proof.
  apply (answer_question_isolates_failure Demo.encode Faiss.search
           Demo.qa_pipeline Demo.library "abc" 3 Demo.retrieved).
  reflexivity.
Defined.

(** C10 on the same run. *)
Lemma best_answer_is_candidate_witness :
  exists reply best,
    QASystem.answer_question Demo.encode Faiss.search Demo.qa_pipeline
      Demo.library "abc" 3 = Ok reply
    /\ QASystem.best_answer reply = Some best
    /\ best ∈ QASystem.all_answers reply
    /\ QASystem.all_answers reply <> [].
Proof.
  apply (best_answer_is_candidate Demo.encode Faiss.search Demo.qa_pipeline
           Demo.library "abc" 3 Demo.retrieved).
  - reflexivity.
  - discriminate.
Defined.

(** The scores 0.2, 0.9, 0.5 in retrieval order: the candidate scored
    0.9 is the best of three. *)
Example scored_run :
  exists reply best,
    QASystem.answer_question Demo.encode Faiss.search Demo.scored_pipeline
      Demo.library "abc" 3 = Ok reply
    /\ QASystem.best_answer reply = Some best
    /\ QASystem.score best = (9 # 10)%Q
    /\ QASystem.context best = "alpha"
    /\ map QASystem.score (QASystem.all_answers reply)
       = [(2 # 10)%Q; (9 # 10)%Q; (5 # 10)%Q].
Proof. eexists _, _. split_and!; reflexivity. Qed.

End QASystemFacts.

(** ** More facts about the prelude *)

Module PyMoreFacts.

Lemma rstrip_idem s : rstrip (rstrip s) = rstrip s.
Proof.
  induction s as [|c s IH]; [done|].
  cbn [rstrip]. destruct (isspace c && negb (truthy (rstrip s))) eqn:Hd; [done|].
  cbn [rstrip]. by rewrite IH, Hd.
Qed.

Lemma lstrip_head s : at_boundary (lstrip s) = true -> lstrip s = "".
Proof.
  induction s as [|c s IH]; [done|].
  cbn [lstrip]. destruct (isspace c) eqn:Hc; [exact IH|].
  cbn [at_boundary]. congruence.
Qed.

Lemma lstrip_fixed s : at_boundary s = false -> lstrip s = s.
Proof. destruct s as [|c s]; [done|]. cbn. by intros ->. Qed.

Lemma rstrip_head s : at_boundary s = false -> at_boundary (rstrip s) = false.
Proof.
  destruct s as [|c s]; [done|]. cbn [at_boundary rstrip].
  intros Hc. rewrite Hc. cbn [andb at_boundary]. exact Hc.
Qed.

(** Stripping twice is stripping once. *)
Lemma strip_idem s : strip (strip s) = strip s.
Proof.
  unfold strip.
  destruct (at_boundary (lstrip s)) eqn:Hb.
  - by rewrite (lstrip_head _ Hb).
  - rewrite (lstrip_fixed (rstrip (lstrip s))) by by apply rstrip_head.
    apply rstrip_idem.
Qed.

(** A window of the fallback, in terms of [take] and [drop]. *)
Lemma slice_window {A : Type} (l : list A) (j n : nat) :
  slice l (Z.of_nat (j * n)) (Z.of_nat (j * n) + Z.of_nat n)
  = take n (drop (j * n) l).
Proof.
  unfold slice, slice_bound, len.
  destruct (Z.ltb_spec (Z.of_nat (j * n)) 0); [lia|].
  destruct (Z.ltb_spec (Z.of_nat (j * n) + Z.of_nat n) 0); [lia|].
  destruct (Nat.le_gt_cases (length l) (j * n)) as [Hout|Hin].
  - rewrite !drop_ge by lia. by rewrite !take_nil.
  - replace (Z.to_nat (Z.min _ (Z.of_nat (j * n)))) with (j * n)%nat by lia.
    destruct (Nat.le_gt_cases (j * n + n) (length l)) as [Hfull|Hpart].
    + f_equal. lia.
    + rewrite !take_ge; [done|rewrite length_drop; lia..].
  Qed.

(** Consecutive windows of [n > 0] elements cover a list exactly when
    there are enough of them. *)
Lemma windows_cover {A : Type} (n : nat) : forall (count : nat) (l : list A),
  (0 < n)%nat -> (length l <= count * n)%nat ->
  concat (map (fun j => take n (drop (j * n) l)) (seq 0 count)) = l.
Proof.
  induction count as [|count IH]; intros l Hn Hlen.
  - destruct l; [done|]. cbn in Hlen. lia.
  - rewrite <- cons_seq, <- fmap_S_seq. cbn [map concat].
    change (list_fmap nat nat S) with (map S). rewrite map_map.
    rewrite (map_ext _ (fun j => take n (drop (j * n) (drop n l)))).
    + rewrite (IH (drop n l) Hn); [apply take_drop|].
      rewrite length_drop. lia.
    + intros j. rewrite drop_drop. do 2 f_equal; lia.
Qed.

End PyMoreFacts.

(** ** More facts about chunk_text *)

Module ChunkerMoreFacts.

Lemma rstrip_word w : is_word w = true -> rstrip w = w.
Proof.
  unfold is_word. intros [_ Hw]%andb_prop.
  induction w as [|c w IH]; [done|].
  cbn [no_space] in Hw. apply andb_prop in Hw as [Hc Hw].
  apply negb_true_iff in Hc. cbn [rstrip]. rewrite Hc. cbn [andb].
  by rewrite IH.
Qed.

Lemma rstrip_app a b :
  truthy (rstrip b) = true -> rstrip (a +:+ b) = a +:+ rstrip b.
Proof.
  intros Hb. induction a as [|c a IH]; [done|].
  change (String c a +:+ b) with (String c (a +:+ b)).
  change (String c a +:+ rstrip b) with (String c (a +:+ rstrip b)).
  cbn [rstrip]. rewrite IH.
  replace (truthy (a +:+ rstrip b)) with true; [by rewrite andb_false_r|].
  destruct a; [done|done].
Qed.

Lemma join_words_head w ws :
  is_word w = true -> at_boundary (join " " (w :: ws)) = false
                      /\ truthy (join " " (w :: ws)) = true.
Proof.
  unfold is_word. intros [Ht Hw]%andb_prop.
  destruct w as [|c w]; [done|]. cbn [no_space] in Hw.
  apply andb_prop in Hw as [Hc _]. apply negb_true_iff in Hc.
  cbn [join]. by destruct ws.
Qed.

Lemma rstrip_join_words ws :
  Forall (fun w => is_word w = true) ws -> rstrip (join " " ws) = join " " ws.
Proof.
  induction 1 as [|w ws Hw Hws IH]; [done|].
  cbn [join]. destruct ws as [|w' ws']; [by apply rstrip_word|].
  inversion Hws as [|? ? Hw' _]; subst.
  destruct (join_words_head w' ws' Hw') as [_ Ht].
  rewrite rstrip_app; rewrite rstrip_app; rewrite IH; done.
Qed.

(** Words joined by single spaces are a fixed point of [strip]. *)
Lemma strip_join_words ws :
  Forall (fun w => is_word w = true) ws -> strip (join " " ws) = join " " ws.
Proof.
  intros Hws. unfold strip. destruct Hws as [|w ws Hw Hws]; [done|].
  rewrite PyMoreFacts.lstrip_fixed by by apply join_words_head.
  apply rstrip_join_words. by constructor.
Qed.

Section facts.

Variable sent_tokenize : string -> result (list string).

Local Abbreviation word_count := Chunker.word_count.

(** The chunks of the fallback are the consecutive windows of
    [chunk_size] words, each joined by single spaces. *)
Lemma fallback_chunks (text : string) (chunk_size : Z) :
  (0 < chunk_size)%Z -> (chunk_size < word_count text)%Z ->
  Chunker.chunk_text false sent_tokenize text chunk_size
  = Ok (map (fun j => join " " (take (Z.to_nat chunk_size)
                                 (drop (j * Z.to_nat chunk_size) (split text))))
          (seq 0 (Z.to_nat ((word_count text + chunk_size - 1) / chunk_size)))).
Proof.
  intros Hpos Hlong. unfold Chunker.chunk_text, Chunker.word_count in *.
  destruct (Z.leb_spec (len (split text)) chunk_size); [lia|].
  unfold range. destruct (Z.eqb_spec chunk_size 0); [lia|].
  destruct (Z.ltb_spec 0 chunk_size); [|lia].
  cbn [bind]. rewrite map_map. f_equal.
  replace (len (split text) - 0 + chunk_size - 1)%Z
    with (len (split text) + chunk_size - 1)%Z by lia.
  apply map_ext. intros j.
  rewrite <- (PyMoreFacts.slice_window (split text) j (Z.to_nat chunk_size)).
  do 2 f_equal; lia.
Qed.

Lemma window_count (n cs : Z) :
  (0 < cs)%Z -> (0 <= n)%Z ->
  (n <= cs * ((n + cs - 1) / cs))%Z
  /\ (cs * ((n + cs - 1) / cs) < n + cs)%Z.
Proof.
  intros Hcs Hn.
  pose proof (Z.div_mod (n + cs - 1) cs ltac:(lia)).
  pose proof (Z.mod_pos_bound (n + cs - 1) cs Hcs). lia.
Qed.


(** X1. Without a sentence tokenizer and with a positive [chunk_size],
    the words of the returned chunks, read in order, are exactly the words
    of the text: none is lost, repeated or moved. *)
Theorem fallback_keeps_words (text : string) (chunk_size : Z) (chunks : list string) :
  (0 < chunk_size)%Z ->
  Chunker.chunk_text false sent_tokenize text chunk_size = Ok chunks ->
  concat (map split chunks) = split text.
Proof.
  intros Hpos. destruct (Z.le_gt_cases (word_count text) chunk_size) as [Hle|Hgt].
  - unfold Chunker.chunk_text, Chunker.word_count in *.
    destruct (Z.leb_spec (len (split text)) chunk_size); [|lia].
    intros [= <-]. cbn. apply app_nil_r.
  - rewrite fallback_chunks by lia. intros [= <-].
    rewrite map_map.
    rewrite (map_ext _ (fun j => take (Z.to_nat chunk_size)
                                   (drop (j * Z.to_nat chunk_size) (split text)))).
    + apply PyMoreFacts.windows_cover; [lia|].
      pose proof (window_count (word_count text) chunk_size Hpos
                    (PyFacts.word_count_nonneg text)).
      unfold Chunker.word_count, len in *. nia.
    + intros j. apply PyFacts.split_join.
      apply Forall_take, Forall_drop, PyFacts.split_words.
Qed.

(** X2. Without a sentence tokenizer, a text of [n > chunk_size > 0]
    words is cut into ceil(n / chunk_size) chunks; chunk [j] holds the
    words [j * chunk_size ..] of the text, [chunk_size] of them or, for
    the last chunk, what is left, and never none. *)
Theorem fallback_windows (text : string) (chunk_size : Z) :
  (0 < chunk_size)%Z ->
  (chunk_size < word_count text)%Z ->
  exists chunks,
    Chunker.chunk_text false sent_tokenize text chunk_size = Ok chunks
    /\ len chunks = ((word_count text + chunk_size - 1) / chunk_size)%Z
    /\ forall j c, chunks !! j = Some c ->
         split c = take (Z.to_nat chunk_size)
                     (drop (j * Z.to_nat chunk_size) (split text))
         /\ word_count c
            = Z.min chunk_size (word_count text - Z.of_nat j * chunk_size)
         /\ (1 <= word_count c)%Z.
Proof.
  intros Hpos Hlong. rewrite fallback_chunks by done.
  pose proof (window_count (word_count text) chunk_size Hpos
                (PyFacts.word_count_nonneg text)) as [Hlo Hhi].
  assert (Hq : (0 <= (word_count text + chunk_size - 1) / chunk_size)%Z)
    by (apply Z.div_pos; lia).
  eexists. split; [done|]. split.
  - unfold len. rewrite length_map, length_seq. lia.
  - intros j c Hj. rewrite list_lookup_fmap in Hj.
    destruct (seq 0 _ !! j) as [j'|] eqn:Hseq; [|done].
    apply lookup_seq in Hseq as [-> Hlt]. cbn in Hj. injection Hj as <-.
    assert (Hsplit : split (join " " (take (Z.to_nat chunk_size)
                       (drop (j * Z.to_nat chunk_size) (split text))))
                     = take (Z.to_nat chunk_size)
                         (drop (j * Z.to_nat chunk_size) (split text))).
    { apply PyFacts.split_join, Forall_take, Forall_drop, PyFacts.split_words. }
    split; [done|].
    unfold Chunker.word_count in *. rewrite Hsplit. unfold len in *.
    rewrite length_take, length_drop. nia.
Qed.

(** X3. Without a sentence tokenizer a non-positive [chunk_size] does not
    chunk at all: zero raises [ValueError], and a negative size silently
    returns no chunk, whatever the text. *)
Theorem fallback_nonpositive_size (text : string) (chunk_size : Z) :
  (chunk_size <= 0)%Z ->
  (chunk_size < word_count text)%Z ->
  Chunker.chunk_text false sent_tokenize text chunk_size
  = if (chunk_size =? 0)%Z
    then Raise (ValueError "range() arg 3 must not be zero")
    else Ok [].
Proof.
  intros Hneg Hlong. unfold Chunker.chunk_text, Chunker.word_count in *.
  destruct (Z.leb_spec (len (split text)) chunk_size); [lia|].
  unfold range. destruct (Z.eqb_spec chunk_size 0); [done|].
  destruct (Z.ltb_spec 0 chunk_size); [lia|]. cbn [bind].
  assert (Hcount : ((0 - len (split text) - chunk_size - 1) / - chunk_size < 1)%Z)
    by (apply Z.div_lt_upper_bound; unfold len; lia).
  by replace (Z.to_nat _) with 0%nat by lia.
Qed.

(** The sentence loop neither drops nor repeats a word. *)
Lemma accumulate_words cs sents : forall chunks cur chunks' cur',
  Chunker.accumulate cs sents chunks cur = (chunks', cur') ->
  concat (map split chunks') ++ split cur'
  = concat (map split chunks) ++ split cur ++ concat (map split sents).
Proof.
  induction sents as [|sent rest IH]; intros chunks cur chunks' cur'.
  - cbn. intros [= <- <-]. by rewrite app_nil_r.
  - cbn [Chunker.accumulate map concat].
    destruct (cs <? len (split (cur +:+ " " +:+ sent)))%Z; intros Hacc;
      apply IH in Hacc as ->.
    + destruct cur as [|c cur]; cbn [truthy]; [done|].
      rewrite map_app, concat_app. cbn [map concat].
      by rewrite PyFacts.split_strip, app_nil_r, <- !app_assoc.
    + change (" " +:+ sent) with (String " "%char sent).
      rewrite PyFacts.split_app_space by reflexivity.
      by rewrite <- !app_assoc.
Qed.

(** Each sentence opens at most one chunk. *)
Lemma accumulate_count cs sents : forall chunks cur chunks' cur',
  Chunker.accumulate cs sents chunks cur = (chunks', cur') ->
  (length chunks' + (if truthy cur' then 1 else 0)
   <= length chunks + (if truthy cur then 1 else 0) + length sents)%nat.
Proof.
  induction sents as [|sent rest IH]; intros chunks cur chunks' cur'.
  - cbn. intros [= <- <-]. lia.
  - cbn [Chunker.accumulate length].
    destruct (cs <? len (split (cur +:+ " " +:+ sent)))%Z; intros Hacc;
      apply IH in Hacc.
    + destruct cur as [|c cur]; cbn [truthy] in *;
        [|rewrite length_app in Hacc; cbn [length] in Hacc];
        destruct (truthy sent); lia.
    + replace (truthy (cur +:+ " " +:+ sent)) with true in Hacc
        by (by destruct cur).
      destruct (truthy cur); lia.
Qed.

Lemma accumulate_stripped cs sents : forall chunks cur chunks' cur',
  Chunker.accumulate cs sents chunks cur = (chunks', cur') ->
  Forall (fun c => strip c = c) chunks ->
  Forall (fun c => strip c = c) chunks'.
Proof.
  induction sents as [|sent rest IH]; intros chunks cur chunks' cur'.
  - cbn. by intros [= <- <-].
  - cbn [Chunker.accumulate].
    destruct (cs <? len (split (cur +:+ " " +:+ sent)))%Z; intros Hacc Hch;
      apply IH in Hacc; [done| |done|done].
    destruct (truthy cur); [|done].
    apply Forall_app. split; [done|].
    constructor; [apply PyMoreFacts.strip_idem|done].
Qed.

(** X4. With the sentence tokenizer, for a text of more than
    [chunk_size] words, the words of the returned chunks, read in order,
    are exactly the words of the sentences the tokenizer produced, and
    there are no more chunks than sentences. *)
Theorem sentence_chunks_keep_words (text : string) (chunk_size : Z)
    (sents chunks : list string) :
  (chunk_size < word_count text)%Z ->
  sent_tokenize text = Ok sents ->
  Chunker.chunk_text true sent_tokenize text chunk_size = Ok chunks ->
  concat (map split chunks) = concat (map split sents)
  /\ (length chunks <= length sents)%nat.
Proof.
  intros Hlong Htok. unfold Chunker.chunk_text, Chunker.word_count in *.
  destruct (Z.leb_spec (len (split text)) chunk_size); [lia|].
  rewrite Htok. cbn [bind].
  destruct (Chunker.accumulate chunk_size sents [] "") as [chs cur] eqn:Hacc.
  intros [= <-].
  pose proof (accumulate_words _ _ _ _ _ _ Hacc) as Hwords.
  pose proof (accumulate_count _ _ _ _ _ _ Hacc) as Hcount.
  cbn [map concat app split truthy length] in Hwords, Hcount.
  destruct cur as [|c cur]; cbn [truthy] in *.
  - rewrite app_nil_r in Hwords. split; [done|lia].
  - rewrite map_app, concat_app, length_app. cbn [map concat length].
    rewrite PyFacts.split_strip, app_nil_r. split; [done|lia].
Qed.

(** X5. For a text of more than [chunk_size] words every returned chunk
    is stripped: it neither starts nor ends with whitespace, with or
    without the sentence tokenizer. *)
Theorem chunks_are_stripped (has_tokenizer : bool) (text : string)
    (chunk_size : Z) (chunks : list string) :
  (chunk_size < word_count text)%Z ->
  Chunker.chunk_text has_tokenizer sent_tokenize text chunk_size = Ok chunks ->
  forall c, c ∈ chunks -> strip c = c.
Proof.
  intros Hlong Hrun c Hc. destruct has_tokenizer.
  - unfold Chunker.chunk_text, Chunker.word_count in *.
    destruct (Z.leb_spec (len (split text)) chunk_size); [lia|].
    destruct (sent_tokenize text) as [sents|e]; [|done]. cbn [bind] in Hrun.
    destruct (Chunker.accumulate chunk_size sents [] "") as [chs cur] eqn:Hacc.
    injection Hrun as <-.
    pose proof (accumulate_stripped _ _ _ _ _ _ Hacc (Forall_nil_2 _)) as Hchs.
    assert (Hin : c ∈ chs \/ c = strip cur).
    { destruct (truthy cur); [|by left].
      apply elem_of_app in Hc as [?|Hc]; [by left|].
      right. by apply list_elem_of_singleton in Hc. }
    destruct Hin as [Hin| ->]; [|apply PyMoreFacts.strip_idem].
    by eapply Forall_forall in Hchs.
  - unfold Chunker.chunk_text, Chunker.word_count in *.
    destruct (Z.leb_spec (len (split text)) chunk_size); [lia|].
    destruct (range 0 (len (split text)) chunk_size) as [starts|e]; [|done].
    cbn [bind] in Hrun. injection Hrun as <-.
    apply list_elem_of_fmap in Hc as (i & -> & _).
    apply strip_join_words, ChunkerFacts.slice_Forall, PyFacts.split_words.
Qed.

End facts.

(** X1 on seven words cut by three. *)
Lemma fallback_keeps_words_witness :
  concat (map split ["a b c"; "d e f"; "g"]) = split "a b c d e f g".
Proof.
  apply (fallback_keeps_words Demo.sent_tokenize "a b c d e f g" 3
           ["a b c"; "d e f"; "g"]).
  - lia.
  - reflexivity.
Defined.

(** X2 on seven words cut by three: three chunks. *)
Lemma fallback_windows_witness :
  exists chunks,
    Chunker.chunk_text false Demo.sent_tokenize "a b c d e f g" 3 = Ok chunks
    /\ len chunks = ((Chunker.word_count "a b c d e f g" + 3 - 1) / 3)%Z
    /\ forall j c, chunks !! j = Some c ->
         split c = take (Z.to_nat 3) (drop (j * Z.to_nat 3) (split "a b c d e f g"))
         /\ Chunker.word_count c
            = Z.min 3 (Chunker.word_count "a b c d e f g" - Z.of_nat j * 3)
         /\ (1 <= Chunker.word_count c)%Z.
Proof.
  apply (fallback_windows Demo.sent_tokenize "a b c d e f g" 3).
  - lia.
  - by vm_compute.
Defined.

(** X3 on a negative size: the seven words are dropped. *)
Lemma fallback_nonpositive_size_witness :
  Chunker.chunk_text false Demo.sent_tokenize "a b c d e f g" (-2) = Ok [].
Proof.
  apply (fallback_nonpositive_size Demo.sent_tokenize "a b c d e f g" (-2)).
  - lia.
  - by vm_compute.
Defined.

(** X4 on [Demo.book] with three words per chunk. *)
Lemma sentence_chunks_keep_words_witness :
  concat (map split ["One two three four."; "Five six. Seven."; "Eight nine ten."])
  = concat (map split ["One two three four."; "Five six."; "Seven."; "Eight nine ten."])
  /\ (length ["One two three four."; "Five six. Seven."; "Eight nine ten."]
      <= length ["One two three four."; "Five six."; "Seven."; "Eight nine ten."])%nat.
Proof.
  apply (sentence_chunks_keep_words Demo.sent_tokenize Demo.book 3).
  - by vm_compute.
  - reflexivity.
  - reflexivity.
Defined.

(** X5 on [Demo.book] with three words per chunk, at the second chunk. *)
Lemma chunks_are_stripped_witness :
  strip "Five six. Seven." = "Five six. Seven.".
Proof.
  apply (chunks_are_stripped Demo.sent_tokenize true Demo.book 3
           ["One two three four."; "Five six. Seven."; "Eight nine ten."]).
  - by vm_compute.
  - reflexivity.
  - set_solver.
Defined.

End ChunkerMoreFacts.

(** ** Facts about strings, paths and counters *)

Module PyStrFacts.

Lemma app_assoc (a b c : string) : (a +:+ b) +:+ c = a +:+ (b +:+ c).
Proof.
  induction a as [|x a IH]; [done|].
  change (String x (a +:+ b) +:+ c = String x (a +:+ (b +:+ c))).
  change (String x ((a +:+ b) +:+ c) = String x (a +:+ (b +:+ c))).
  by rewrite IH.
Qed.

Lemma app_nil_r (a : string) : a +:+ "" = a.
Proof.
  induction a as [|x a IH]; [done|].
  change (String x (a +:+ "") = String x a). by rewrite IH.
Qed.

Lemma length_app (a b : string) :
  String.length (a +:+ b) = (String.length a + String.length b)%nat.
Proof.
  induction a as [|x a IH]; [done|].
  change (S (String.length (a +:+ b)) = S (String.length a + String.length b)).
  by rewrite IH.
Qed.

Lemma substring_all (s : string) : String.substring 0 (String.length s) s = s.
Proof. induction s as [|x s IH]; [done|]. cbn. by rewrite IH. Qed.

Lemma substring_prefix (a b : string) :
  String.substring 0 (String.length a) (a +:+ b) = a.
Proof.
  induction a as [|x a IH]; [by destruct b|].
  change (String x a +:+ b) with (String x (a +:+ b)). cbn. by rewrite IH.
Qed.

Lemma substring_skip (a b : string) (m : nat) :
  String.substring (String.length a) m (a +:+ b) = String.substring 0 m b.
Proof.
  induction a as [|x a IH]; [done|].
  change (String x a +:+ b) with (String x (a +:+ b)). cbn. apply IH.
Qed.

Lemma rfind_absent (s : string) (c : ascii) :
  PyStr.has_char c s = false -> PyStr.rfind s c = (-1)%Z.
Proof.
  induction s as [|x s IH]; [done|].
  cbn [PyStr.has_char PyStr.rfind]. intros [Hx Hs]%orb_false_elim.
  by rewrite (IH Hs), Hx.
Qed.

Lemma rfind_lower_bound (s : string) (c : ascii) : (-1 <= PyStr.rfind s c)%Z.
Proof.
  induction s as [|x s IH]; [done|]. cbn [PyStr.rfind].
  destruct (Z.ltb_spec (PyStr.rfind s c) 0); [destruct (Ascii.eqb x c)|]; lia.
Qed.

Lemma rfind_app (a b : string) (c : ascii) :
  PyStr.rfind (a +:+ b) c
  = if (PyStr.rfind b c <? 0)%Z then PyStr.rfind a c
    else (Z.of_nat (String.length a) + PyStr.rfind b c)%Z.
Proof.
  induction a as [|x a IH].
  - change ("" +:+ b) with b. cbn [PyStr.rfind String.length].
    destruct (Z.ltb_spec (PyStr.rfind b c) 0); [|lia].
    pose proof (rfind_lower_bound b c). lia.
  - change (String x a +:+ b) with (String x (a +:+ b)).
    cbn [PyStr.rfind String.length]. rewrite IH.
    pose proof (rfind_lower_bound a c).
    destruct (Z.ltb_spec (PyStr.rfind b c) 0); [done|].
    destruct (Z.ltb_spec (Z.of_nat (String.length a) + PyStr.rfind b c) 0); lia.
Qed.

(** The last occurrence of [c] in [a ++ c ++ b] when [b] holds none. *)
Lemma rfind_last (a b : string) (c : ascii) :
  PyStr.has_char c b = false ->
  PyStr.rfind (a +:+ String c b) c = Z.of_nat (String.length a).
Proof.
  intros Hb. rewrite rfind_app. cbn [PyStr.rfind].
  rewrite (rfind_absent b c Hb), Ascii.eqb_refl. cbn. lia.
Qed.

(** Where the file name starts: right after a directory prefix that is
    empty or ends in a slash, when the rest holds no slash. *)
Lemma rfind_sep (dir name : string) :
  dir = "" \/ (exists d, dir = d +:+ "/") ->
  PyStr.has_char "/" name = false ->
  (PyStr.rfind (dir +:+ name) "/" + 1 = Z.of_nat (String.length dir))%Z.
Proof.
  intros Hdir Hname. rewrite rfind_app, (rfind_absent name _ Hname). cbn.
  destruct Hdir as [->|[d ->]]; [done|].
  rewrite (rfind_last d "" "/"%char eq_refl), length_app. cbn. lia.
Qed.

Lemma has_char_app (c : ascii) (a b : string) :
  PyStr.has_char c (a +:+ b) = PyStr.has_char c a || PyStr.has_char c b.
Proof.
  induction a as [|x a IH]; [done|].
  change (String x a +:+ b) with (String x (a +:+ b)).
  cbn [PyStr.has_char]. by rewrite IH, orb_assoc.
Qed.

(** The middle of three concatenated strings, as a slice. *)
Lemma str_slice_middle (a b c : string) (i j : Z) :
  i = Z.of_nat (String.length a) ->
  j = Z.of_nat (String.length a + String.length b) ->
  PyStr.str_slice (a +:+ b +:+ c) i j = b.
Proof.
  intros -> ->. unfold PyStr.str_slice, slice_bound. rewrite !length_app.
  destruct (Z.ltb_spec (Z.of_nat (String.length a)) 0); [lia|].
  destruct (Z.ltb_spec (Z.of_nat (String.length a + String.length b)) 0); [lia|].
  replace (Z.to_nat (Z.min _ (Z.of_nat (String.length a))))
    with (String.length a) by lia.
  replace (Z.to_nat (_ - _)) with (String.length b) by lia.
  by rewrite substring_skip, substring_prefix.
Qed.

Lemma str_from_suffix (a b : string) (i : Z) :
  i = Z.of_nat (String.length a) -> PyStr.str_from (a +:+ b) i = b.
Proof.
  intros ->. unfold PyStr.str_from.
  rewrite <- (app_nil_r b) at 1.
  apply str_slice_middle; [done|]. rewrite !length_app. cbn. lia.
Qed.

End PyStrFacts.

(** ** Facts about document_loader.py *)

Module DocumentLoaderFacts.

(** The extension of [dir/stem.ext] is [.ext], whatever dots [dir] and
    [stem] hold, as long as the file name does not consist of leading dots
    only. *)
Lemma splitext_ext (dir stem ext : string) :
  dir = "" \/ (exists d, dir = d +:+ "/") ->
  PyStr.has_char "/" stem = false ->
  PyStr.has_char "/" ext = false ->
  PyStr.has_char "." ext = false ->
  PyStr.dot_follows_name stem = true ->
  PyStr.splitext (dir +:+ stem +:+ String "." ext)
  = (dir +:+ stem, String "." ext).
Proof.
  intros Hdir Hstem Hext Hdot Hname.
  assert (Hsep : (PyStr.rfind (dir +:+ stem +:+ String "." ext) "/" + 1
                  = Z.of_nat (String.length dir))%Z).
  { apply PyStrFacts.rfind_sep; [done|].
    rewrite PyStrFacts.has_char_app. cbn [PyStr.has_char]. by rewrite Hstem, Hext. }
  assert (Hdoti : PyStr.rfind (dir +:+ stem +:+ String "." ext) "."
                  = Z.of_nat (String.length (dir +:+ stem))).
  { rewrite <- PyStrFacts.app_assoc. by apply PyStrFacts.rfind_last. }
  unfold PyStr.splitext. rewrite Hdoti.
  replace (PyStr.rfind (dir +:+ stem +:+ String "." ext) "/")
    with (Z.of_nat (String.length dir) - 1)%Z by lia.
  rewrite (PyStrFacts.str_slice_middle dir stem (String "." ext))
    by (rewrite ?PyStrFacts.length_app; lia).
  rewrite Hname, andb_true_r.
  destruct (Z.ltb_spec (Z.of_nat (String.length dir) - 1)
              (Z.of_nat (String.length (dir +:+ stem))));
    [|rewrite PyStrFacts.length_app in *; lia].
  rewrite <- PyStrFacts.app_assoc.
  rewrite (PyStrFacts.str_from_suffix (dir +:+ stem) (String "." ext)) by done.
  by rewrite (PyStrFacts.str_slice_middle "" (dir +:+ stem) (String "." ext)).
Qed.


Lemma rfind_upper_bound (s : string) (c : ascii) :
  (PyStr.rfind s c < Z.of_nat (String.length s))%Z.
Proof.
  induction s as [|x s IH]; [done|]. cbn [PyStr.rfind String.length].
  destruct (Z.ltb_spec (PyStr.rfind s c) 0); [destruct (Ascii.eqb x c)|]; lia.
Qed.

(** A file name without a dot, or with no dot but a leading one, has no
    extension, whatever dots the directory holds. *)
Lemma splitext_no_ext (dir name : string) :
  is_dir_prefix dir ->
  PyStr.has_char "/" name = false ->
  PyStr.has_char "." name = false
  \/ (exists e, name = String "." e /\ PyStr.has_char "." e = false) ->
  PyStr.splitext (dir +:+ name) = (dir +:+ name, "").
Proof.
  intros Hdir Hname Hdots.
  pose proof (PyStrFacts.rfind_sep dir name Hdir Hname) as Hsep.
  unfold PyStr.splitext.
  replace (PyStr.rfind (dir +:+ name) "/")
    with (Z.of_nat (String.length dir) - 1)%Z by lia.
  destruct Hdots as [Hnone|(e & -> & He)].
  - rewrite (PyStrFacts.rfind_app dir name "."), (PyStrFacts.rfind_absent _ _ Hnone).
    cbn [Z.ltb Z.compare].
    pose proof (rfind_upper_bound dir ".").
    by destruct (Z.ltb_spec (Z.of_nat (String.length dir) - 1) (PyStr.rfind dir "."));
      [lia|].
  - rewrite (PyStrFacts.rfind_last dir e "." He).
    change (dir +:+ String "." e) with (dir +:+ "" +:+ String "." e) at 1.
    rewrite (PyStrFacts.str_slice_middle dir "" (String "." e));
      [by rewrite andb_false_r|lia|cbn; lia].
Qed.

Section loaders.

Variable load_pdf : string -> result string.
Variable load_txt : string -> result string.
Variable load_docx : string -> result string.

Local Abbreviation load_and_clean :=
  (DocumentLoader.load_and_clean load_pdf load_txt load_docx).

(** X6. For a path [dir/stem.ext] the reader is chosen by [ext] alone,
    compared without regard to case: [pdf], [txt] and [docx] go to their
    readers and the text read is cleaned; every other extension raises
    [ValueError] naming it, and no reader is consulted. *)
Theorem load_and_clean_by_extension (dir stem ext : string) :
  is_dir_prefix dir ->
  PyStr.has_char "/" stem = false ->
  PyStr.has_char "/" ext = false ->
  PyStr.has_char "." ext = false ->
  PyStr.dot_follows_name stem = true ->
  load_and_clean (dir +:+ stem +:+ String "." ext)
  = if String.eqb (PyStr.lower ext) "pdf" then
      let* text := load_pdf (dir +:+ stem +:+ String "." ext) in
      Ok (DocumentLoader.clean_text text)
    else if String.eqb (PyStr.lower ext) "txt" then
      let* text := load_txt (dir +:+ stem +:+ String "." ext) in
      Ok (DocumentLoader.clean_text text)
    else if String.eqb (PyStr.lower ext) "docx" then
      let* text := load_docx (dir +:+ stem +:+ String "." ext) in
      Ok (DocumentLoader.clean_text text)
    else Raise (ValueError ("Unsupported file type: ." +:+ PyStr.lower ext)).
Proof.
  intros Hdir Hstem Hext Hdot Hname. unfold DocumentLoader.load_and_clean.
  rewrite (splitext_ext dir stem ext Hdir Hstem Hext Hdot Hname).
  cbn [snd PyStr.lower].
  change (PyStr.lower_char ".") with "."%char.
  change (String.eqb (String "." (PyStr.lower ext)) ".pdf")
    with (String.eqb (PyStr.lower ext) "pdf").
  change (String.eqb (String "." (PyStr.lower ext)) ".txt")
    with (String.eqb (PyStr.lower ext) "txt").
  change (String.eqb (String "." (PyStr.lower ext)) ".docx")
    with (String.eqb (PyStr.lower ext) "docx").
  destruct (String.eqb (PyStr.lower ext) "pdf"); [done|].
  destruct (String.eqb (PyStr.lower ext) "txt"); [done|].
  destruct (String.eqb (PyStr.lower ext) "docx"); [done|].
  reflexivity.
Qed.

(** X7. A file whose name has no extension, among them a dot file such
    as [.pdf], is rejected with [ValueError] and an empty extension in
    the message, even when a directory of the path has a dot in its
    name. *)
Theorem load_and_clean_no_extension (dir name : string) :
  is_dir_prefix dir ->
  PyStr.has_char "/" name = false ->
  PyStr.has_char "." name = false
  \/ (exists e, name = String "." e /\ PyStr.has_char "." e = false) ->
  load_and_clean (dir +:+ name) = Raise (ValueError "Unsupported file type: ").
Proof.
  intros Hdir Hname Hdots. unfold DocumentLoader.load_and_clean.
  by rewrite (splitext_no_ext dir name Hdir Hname Hdots).
Qed.

End loaders.

(** X6 on [uploads/Book.PDF]: the extension is matched in lower case. *)
Lemma load_and_clean_by_extension_witness :
  DocumentLoader.load_and_clean (fun _ => Ok "  A  tale ") (fun _ => Ok "")
    (fun _ => Ok "") "uploads/Book.PDF"
  = Ok "A tale".
Proof.
  apply (load_and_clean_by_extension (fun _ => Ok "  A  tale ") (fun _ => Ok "")
           (fun _ => Ok "") "uploads/" "Book" "PDF").
  - right. by exists "uploads".
  - reflexivity.
  - reflexivity.
  - reflexivity.
  - reflexivity.
Defined.

(** X7 on [my.books/.pdf]. *)
Lemma load_and_clean_no_extension_witness :
  DocumentLoader.load_and_clean (fun _ => Ok "a") (fun _ => Ok "b")
    (fun _ => Ok "c") "my.books/.pdf"
  = Raise (ValueError "Unsupported file type: ").
Proof.
  apply (load_and_clean_no_extension (fun _ => Ok "a") (fun _ => Ok "b")
           (fun _ => Ok "c") "my.books/" ".pdf").
  - right. by exists "my.books".
  - reflexivity.
  - right. by exists "pdf".
Defined.

Lemma isspace_space : isspace " " = true.
Proof. reflexivity. Qed.

Lemma all_chars_lstrip pred s :
  PyStr.all_chars pred s = true -> PyStr.all_chars pred (lstrip s) = true.
Proof.
  induction s as [|c s IH]; [done|]. cbn [lstrip].
  destruct (isspace c); [|done].
  cbn [PyStr.all_chars]. intros [_ Hs]%andb_prop. by apply IH.
Qed.

Lemma all_chars_rstrip pred s :
  PyStr.all_chars pred s = true -> PyStr.all_chars pred (rstrip s) = true.
Proof.
  induction s as [|c s IH]; [done|]. cbn [rstrip PyStr.all_chars].
  intros [Hc Hs]%andb_prop.
  destruct (isspace c && negb (truthy (rstrip s))); [done|].
  cbn [PyStr.all_chars]. by rewrite Hc, IH.
Qed.

Lemma all_chars_sub_control pred s :
  PyStr.all_chars pred s = true ->
  PyStr.all_chars pred (DocumentLoader.sub_control s) = true.
Proof.
  induction s as [|c s IH]; [done|].
  cbn [DocumentLoader.sub_control PyStr.all_chars]. intros [Hc Hs]%andb_prop.
  destruct (DocumentLoader.is_control c); [by apply IH|].
  cbn [PyStr.all_chars]. by rewrite Hc, IH.
Qed.

Lemma sub_control_printable s :
  PyStr.all_chars printable (DocumentLoader.sub_control s) = true.
Proof.
  induction s as [|c s IH]; [done|]. cbn [DocumentLoader.sub_control].
  destruct (DocumentLoader.is_control c) eqn:Hc; [done|].
  cbn [PyStr.all_chars]. unfold printable at 1. by rewrite Hc, IH.
Qed.

Lemma sub_control_id s :
  PyStr.all_chars printable s = true -> DocumentLoader.sub_control s = s.
Proof.
  induction s as [|c s IH]; [done|].
  cbn [PyStr.all_chars DocumentLoader.sub_control]. unfold printable at 1.
  intros [Hc Hs]%andb_prop. apply negb_true_iff in Hc. by rewrite Hc, IH.
Qed.

Lemma sub_whitespace_plain s :
  PyStr.all_chars plain_space (DocumentLoader.sub_whitespace s) = true.
Proof.
  induction s as [|c s IH]; [done|]. cbn [DocumentLoader.sub_whitespace].
  destruct (isspace c) eqn:Hc.
  - destruct s as [|c' s]; [done|].
    destruct (isspace c'); [done|]. cbn [PyStr.all_chars]. by rewrite IH.
  - cbn [PyStr.all_chars]. unfold plain_space at 1. by rewrite Hc, IH.
Qed.

Lemma sub_whitespace_printable s :
  PyStr.all_chars tame s = true ->
  PyStr.all_chars printable (DocumentLoader.sub_whitespace s) = true.
Proof.
  induction s as [|c s IH]; [done|].
  cbn [PyStr.all_chars DocumentLoader.sub_whitespace]. intros [Hc Hs]%andb_prop.
  destruct (isspace c) eqn:Hsp.
  - destruct s as [|c' s]; [done|].
    destruct (isspace c'); [by apply IH|]. cbn [PyStr.all_chars].
    by rewrite IH.
  - cbn [PyStr.all_chars]. unfold tame in Hc. rewrite Hsp, orb_false_r in Hc.
    by rewrite Hc, IH.
Qed.

Lemma lstrip_sub_whitespace s :
  lstrip (DocumentLoader.sub_whitespace s) = DocumentLoader.sub_whitespace (lstrip s).
Proof.
  induction s as [|c s IH]; [done|].
  cbn [DocumentLoader.sub_whitespace lstrip]. destruct (isspace c) eqn:Hc.
  - destruct s as [|c' s]; [done|].
    destruct (isspace c') eqn:Hc'; [done|].
    cbn [lstrip]. by rewrite isspace_space.
  - cbn [lstrip]. rewrite Hc. cbn [DocumentLoader.sub_whitespace]. by rewrite Hc.
Qed.

Lemma join_cons_char c w ws :
  join " " (String c w :: ws) = String c (join " " (w :: ws)).
Proof. cbn [join]. by destruct ws. Qed.

(** What is left of the collapsed text once its trailing space is
    removed: the words, single-spaced, after the leading space if any. *)
Lemma rstrip_sub_whitespace s :
  rstrip (DocumentLoader.sub_whitespace s)
  = match split s with
    | [] => ""
    | ws => if at_boundary s then String " " (join " " ws) else join " " ws
    end.
Proof.
  induction s as [|c s IH]; [done|].
  cbn [DocumentLoader.sub_whitespace split at_boundary].
  destruct (isspace c) eqn:Hc.
  - destruct s as [|c' s]; [done|].
    cbn [at_boundary] in IH. destruct (isspace c') eqn:Hc'; [done|].
    cbn [rstrip]. rewrite IH, isspace_space.
    destruct (PyFacts.split_head_word c' s Hc') as (w & ws & Hs). rewrite Hs.
    pose proof (PyFacts.split_words (String c' s)) as Hw. rewrite Hs in Hw.
    inversion Hw as [|? ? Hw1 _]; subst.
    destruct (ChunkerMoreFacts.join_words_head w ws Hw1) as [_ ->]. done.
  - cbn [rstrip]. rewrite Hc, IH. cbn [andb].
    destruct (at_boundary s) eqn:Hb.
    + by destruct (split s).
    + destruct (split s) as [|w ws]; [done|]. by rewrite join_cons_char.
Qed.

(** Collapsing then stripping leaves the words joined by single spaces. *)
Lemma strip_sub_whitespace s :
  strip (DocumentLoader.sub_whitespace s) = join " " (split s).
Proof.
  unfold strip. rewrite lstrip_sub_whitespace, rstrip_sub_whitespace.
  rewrite PyFacts.split_lstrip.
  destruct (at_boundary (lstrip s)) eqn:Hb; [|by destruct (split s)].
  rewrite <- (PyFacts.split_lstrip s), (PyMoreFacts.lstrip_head _ Hb). done.
Qed.

Lemma clean_text_printable (text : string) :
  PyStr.all_chars printable (DocumentLoader.clean_text text) = true.
Proof.
  unfold DocumentLoader.clean_text. destruct (truthy text); [|done].
  apply all_chars_rstrip, all_chars_lstrip, sub_control_printable.
Qed.

(** X8. Whatever the input, the cleaned text holds no control character,
    its only whitespace is the plain space, and it neither starts nor ends
    with whitespace. *)
Theorem clean_text_output (text : string) :
  PyStr.all_chars printable (DocumentLoader.clean_text text) = true
  /\ PyStr.all_chars plain_space (DocumentLoader.clean_text text) = true
  /\ strip (DocumentLoader.clean_text text) = DocumentLoader.clean_text text.
Proof.
  split; [apply clean_text_printable|].
  unfold DocumentLoader.clean_text. destruct (truthy text); [|done].
  split.
  - apply all_chars_rstrip, all_chars_lstrip, all_chars_sub_control,
      sub_whitespace_plain.
  - apply PyMoreFacts.strip_idem.
Qed.

(** X9. On a text whose only control characters are whitespace, cleaning
    is [' '.join(text.split())]: the words are kept as they are and
    separated by single spaces; cleaning again changes nothing. *)
Theorem clean_text_normalises (text : string) :
  PyStr.all_chars tame text = true ->
  DocumentLoader.clean_text text = join " " (split text)
  /\ split (DocumentLoader.clean_text text) = split text
  /\ DocumentLoader.clean_text (DocumentLoader.clean_text text)
     = DocumentLoader.clean_text text.
Proof.
  intros Htame.
  assert (Hclean : forall s, PyStr.all_chars tame s = true ->
            DocumentLoader.clean_text s = join " " (split s)).
  { intros s Hs. unfold DocumentLoader.clean_text. destruct s as [|c s]; [done|].
    cbn [truthy].
    rewrite sub_control_id by by apply sub_whitespace_printable.
    apply strip_sub_whitespace. }
  assert (Hsplit : split (join " " (split text)) = split text)
    by apply PyFacts.split_join, PyFacts.split_words.
  rewrite (Hclean text Htame). split_and!; [done|done|].
  rewrite Hclean, Hsplit; [done|].
  rewrite <- (Hclean text Htame).
  pose proof (clean_text_printable text) as Hp.
  clear -Hp. induction (DocumentLoader.clean_text text) as [|c s IH]; [done|].
  cbn [PyStr.all_chars] in *. apply andb_prop in Hp as [Hc Hs].
  unfold tame at 1. by rewrite Hc, IH.
Qed.

(** X9 on a text with a tab, a double space and a newline. *)
Lemma clean_text_normalises_witness :
  DocumentLoader.clean_text (String "009" ("Call  me" +:+ String "010" " Ishmael. "))
  = join " " (split (String "009" ("Call  me" +:+ String "010" " Ishmael. ")))
  /\ split (DocumentLoader.clean_text
              (String "009" ("Call  me" +:+ String "010" " Ishmael. ")))
     = split (String "009" ("Call  me" +:+ String "010" " Ishmael. "))
  /\ DocumentLoader.clean_text
       (DocumentLoader.clean_text
          (String "009" ("Call  me" +:+ String "010" " Ishmael. ")))
     = DocumentLoader.clean_text
         (String "009" ("Call  me" +:+ String "010" " Ishmael. ")).
Proof.
  apply (clean_text_normalises
           (String "009" ("Call  me" +:+ String "010" " Ishmael. "))).
  by vm_compute.
Defined.

Lemma split_newline_end s :
  split (s +:+ String "010" "") = split s.
Proof. rewrite PyFacts.split_app_space by reflexivity. apply List.app_nil_r. Qed.

(** The text accumulated so far ends each page with a newline, so the
    next page starts a new word. *)
Lemma load_pdf_pages_words pages : forall text,
  split (DocumentLoader.load_pdf_pages pages (text +:+ String "010" ""))
  = split text ++ concat (map (fun p => split (default "" p)) pages).
Proof.
  induction pages as [|[t|] rest IH]; intros text; cbn [DocumentLoader.load_pdf_pages map concat].
  - by rewrite split_newline_end, List.app_nil_r.
  - destruct t as [|c t]; cbn [truthy default]; [apply IH|].
    rewrite <- (PyStrFacts.app_assoc (text +:+ String "010" "") (String c t)
                  (String "010" "")), IH.
    rewrite (PyStrFacts.app_assoc text (String "010" "") (String c t)).
    change (String "010" "" +:+ String c t) with (String "010" (String c t)).
    rewrite (PyFacts.split_app_space text "010" (String c t)) by reflexivity.
    by rewrite <- List.app_assoc.
  - apply IH.
Qed.

(** X10. The words of the text read from a PDF are the words of its pages
    in page order: a page break never joins two words, and a page without
    text contributes nothing. *)
Theorem load_pdf_pages_keeps_words (pages : list (option string)) :
  split (DocumentLoader.load_pdf_pages pages "")
  = concat (map (fun p => split (default "" p)) pages).
Proof.
  induction pages as [|[t|] rest IH]; cbn [DocumentLoader.load_pdf_pages map concat];
    [done| |done].
  destruct t as [|c t]; cbn [truthy default]; [done|].
  change ("" +:+ String c t +:+ String "010" "")
    with (String c t +:+ String "010" "").
  apply load_pdf_pages_words.
Qed.

(** X11. The words of the text read from a Word document are the words
    of its paragraphs in order: a paragraph break never joins two words. *)
Theorem load_docx_keeps_words (paragraphs : list string) :
  split (DocumentLoader.load_docx_paragraphs paragraphs)
  = concat (map split paragraphs).
Proof.
  unfold DocumentLoader.load_docx_paragraphs.
  induction paragraphs as [|p rest IH]; [done|].
  cbn [join map concat]. destruct rest as [|p' rest'].
  - cbn. by rewrite List.app_nil_r.
  - change (String "010" "" +:+ join (String "010" "") (p' :: rest'))
      with (String "010" (join (String "010" "") (p' :: rest'))).
    rewrite PyFacts.split_app_space by reflexivity. by rewrite IH.
Qed.

End DocumentLoaderFacts.

(** ** More facts about VectorStore *)

Module VectorStoreMoreFacts.

Lemma getitem_elem {A : Type} (l : list A) (i : Z) (x : A) :
  getitem l i = Ok x -> x ∈ l.
Proof.
  unfold getitem.
  destruct ((if (i <? 0)%Z then (i + len l)%Z else i) <? 0)%Z; [done|].
  destruct (l !! _) as [y|] eqn:Hy; [|done].
  intros [= <-]. by eapply list_elem_of_lookup_2.
Qed.

(** Whatever the hits, a tuple the loop appends is a record of the
    metadata together with its own text. *)
Lemma collect_sound md : forall hits acc out,
  VectorStore.collect md hits acc = Ok out ->
  exists new, out = acc ++ new
    /\ (length new <= length hits)%nat
    /\ Forall (fun r : string * gmap string string * Q =>
                 r.1.2 ∈ md /\ r.1.2 !! "text" = Some r.1.1) new.
Proof.
  induction hits as [|[idx dist] rest IH]; intros acc out.
  - cbn. intros [= <-]. exists []. by rewrite app_nil_r.
  - cbn [VectorStore.collect length].
    destruct (idx <? len md)%Z.
    + destruct (getitem md idx) as [record|e] eqn:Hget; [|done]. cbn [bind].
      unfold dict_getitem. destruct (record !! "text") as [text|] eqn:Htext; [|done].
      cbn [bind]. intros Hrun. apply IH in Hrun as (new & -> & Hlen & Hall).
      exists ((text, record, dist) :: new). rewrite <- app_assoc. split_and!; [done|cbn; lia|].
      constructor; [|done]. split; [by eapply getitem_elem|done].
    + intros Hrun. apply IH in Hrun as (new & -> & Hlen & Hall).
      exists new. split_and!; [done|lia|done].
Qed.

(** Hits with labels that are not negative: those past the end are
    skipped, the others yield their tuples in order. *)
Lemma collect_nonneg md : forall hits acc,
  Forall has_text md ->
  Forall (fun h : Z * Q => (0 <= h.1)%Z) hits ->
  exists out, VectorStore.collect md hits acc = Ok (acc ++ out)
              /\ Forall2 (hit_result md) (kept_hits md hits) out.
Proof.
  induction hits as [|[idx dist] rest IH]; intros acc Hmd Hhits.
  - exists []. cbn. by rewrite app_nil_r.
  - inversion Hhits as [|? ? Hidx Hrest]; subst. cbn [fst] in Hidx.
    unfold kept_hits. rewrite filter_cons. cbn [VectorStore.collect fst].
    destruct (decide (idx < len md)%Z) as [Hlt|Hge].
    + destruct (Z.ltb_spec idx (len md)); [|lia].
      destruct (VectorStoreFacts.getitem_in_bounds md idx (conj Hidx Hlt))
        as (record & Hlook & ->).
      cbn [bind].
      assert (Htext : has_text record).
      { eapply Forall_forall in Hmd; [done|]. by eapply list_elem_of_lookup_2. }
      destruct Htext as [text Htext].
      unfold dict_getitem. rewrite Htext. cbn [bind].
      destruct (IH (acc ++ [(text, record, dist)]) Hmd Hrest) as (out & -> & Hout).
      exists ((text, record, dist) :: out). split; [by rewrite <- app_assoc|].
      constructor; [|done]. by exists record, text.
    + destruct (Z.ltb_spec idx (len md)); [lia|]. by apply IH.
Qed.

(** One in-bounds hit on a record without the key [text] ends the loop
    with [KeyError], whatever was collected before. *)
Lemma collect_key_error md : forall hits acc,
  Forall (fun h : Z * Q => (0 <= h.1 < len md)%Z) hits ->
  Exists (fun h : Z * Q =>
            exists record, md !! Z.to_nat h.1 = Some record
                           /\ record !! "text" = None) hits ->
  VectorStore.collect md hits acc = Raise (KeyError "text").
Proof.
  induction hits as [|[idx dist] rest IH]; intros acc Hin Hbad.
  - by apply Exists_nil in Hbad.
  - inversion Hin as [|? ? Hidx Hrest]; subst. cbn [fst] in Hidx.
    cbn [VectorStore.collect].
    destruct (Z.ltb_spec idx (len md)); [|lia].
    destruct (VectorStoreFacts.getitem_in_bounds md idx Hidx)
      as (record & Hlook & ->).
    cbn [bind]. unfold dict_getitem.
    apply Exists_cons in Hbad as [(record' & Hlook' & Hnone)|Hbad].
    + cbn [fst] in Hlook'. rewrite Hlook in Hlook'. injection Hlook' as <-.
      by rewrite Hnone.
    + destruct (record !! "text"); [|done]. cbn [bind]. by apply IH.
Qed.

Section facts.

Variable dim : Z.
Variable encode : list string -> list Faiss.vector.
Variable index_search :
  Faiss.Index -> list Faiss.vector -> Z -> result (list (list Q) * list (list Z)).

Local Abbreviation __init__ := (VectorStore.__init__ dim).
Local Abbreviation add_texts := (VectorStore.add_texts encode).
Local Abbreviation search := (VectorStore.search encode index_search).

(** X12. Whatever the nearest-neighbour search answers, every tuple that
    [search] returns holds a record of the store's metadata and, as its
    text, that record's own [text] entry. *)
Theorem search_returns_stored_records (self : VectorStore.t) (query : string)
    (top_k : Z) (results : list (string * gmap string string * Q)) :
  search self query top_k = Ok results ->
  Forall (fun r : string * gmap string string * Q =>
            r.1.2 ∈ VectorStore.metadata self /\ r.1.2 !! "text" = Some r.1.1)
    results.
Proof.
  unfold VectorStore.search.
  destruct (Faiss.ntotal (VectorStore.index self) =? 0)%Z; [by intros [= <-]|].
  destruct (index_search _ _ _) as [[D I]|e]; [|done]. cbn [bind snd fst].
  destruct (getitem I 0) as [I0|e]; [|done]. cbn [bind].
  destruct (getitem D 0) as [D0|e]; [|done]. cbn [bind].
  intros Hrun. by apply collect_sound in Hrun as (new & -> & _ & Hall).
Qed.

(** X13. When the labels of the row are not negative and every record has
    a text, [search] succeeds: hits whose label is at or past the end of
    the metadata are skipped, and the remaining hits yield their tuples in
    the order of the row, each the record at its label with its distance. *)
Theorem search_skips_and_keeps_order (self : VectorStore.t) (query : string)
    (top_k : Z) (labels : list Z) (dists : list Q) :
  Faiss.ntotal (VectorStore.index self) <> 0%Z ->
  index_search (VectorStore.index self) (encode [query]) top_k
  = Ok ([dists], [labels]) ->
  Forall has_text (VectorStore.metadata self) ->
  Forall (fun idx => (0 <= idx)%Z) labels ->
  exists results,
    search self query top_k = Ok results
    /\ Forall2 (hit_result (VectorStore.metadata self))
         (kept_hits (VectorStore.metadata self) (zip labels dists)) results.
Proof.
  intros Hpos Hs Htext Hlabels.
  rewrite (VectorStoreFacts.search_first_row _ _ _ _ _ _ _ Hpos Hs).
  destruct (collect_nonneg (VectorStore.metadata self) (zip labels dists) [] Htext)
    as (out & -> & Hout); [|by exists out].
  apply Forall_forall. intros [idx dist] Hhit. cbn [fst].
  apply elem_of_zip_l in Hhit. by eapply Forall_forall in Hlabels.
Qed.

(** X14. There is no isolation per hit: when the row has as many labels
    as distances, all in bounds, and one of the records hit lacks the key
    [text], the whole search raises [KeyError]. *)
Theorem search_key_error (self : VectorStore.t) (query : string)
    (top_k : Z) (labels : list Z) (dists : list Q) :
  Faiss.ntotal (VectorStore.index self) <> 0%Z ->
  index_search (VectorStore.index self) (encode [query]) top_k
  = Ok ([dists], [labels]) ->
  length labels = length dists ->
  Forall (fun idx => (0 <= idx < len (VectorStore.metadata self))%Z) labels ->
  Exists (fun idx => exists record,
            VectorStore.metadata self !! Z.to_nat idx = Some record
            /\ record !! "text" = None) labels ->
  search self query top_k = Raise (KeyError "text").
Proof.
  intros Hpos Hs Hlen Hin Hbad.
  rewrite (VectorStoreFacts.search_first_row _ _ _ _ _ _ _ Hpos Hs).
  apply collect_key_error.
  - apply Forall_forall. intros [idx dist] Hhit. cbn [fst].
    apply elem_of_zip_l in Hhit. by eapply Forall_forall in Hin.
  - apply Exists_exists in Hbad as (idx & Hidx & Hrec).
    apply list_elem_of_lookup_1 in Hidx as [i Hi].
    destruct (lookup_lt_is_Some_2 dists i) as [dist Hd].
    { rewrite <- Hlen. by eapply lookup_lt_Some. }
    apply Exists_exists. exists (idx, dist). split; [|done].
    eapply list_elem_of_lookup_2. by apply lookup_zip_with_Some; eauto.
Qed.


(** X15. [add_texts] does not check its two arguments against each
    other: on a store with equal counts and a non-empty batch that the
    model embeds row by row, the counts are equal afterwards exactly when
    [texts] and [meta] have the same length. *)
Theorem add_texts_needs_equal_lengths (self : VectorStore.t)
    (fs : gmap string FS.file) (texts : list string)
    (meta : list (gmap string string)) :
  counts_agree self ->
  texts <> [] ->
  length (encode texts) = length texts ->
  counts_agree (add_texts self fs texts meta).1 <-> length texts = length meta.
Proof.
  unfold counts_agree, Faiss.ntotal, len, VectorStore.add_texts.
  intros Hinv Hne Henc. destruct texts as [|t texts]; [done|].
  cbn [fst VectorStore.index VectorStore.metadata Faiss.add Faiss.xb].
  rewrite !length_app, Henc. lia.
Qed.

End facts.



(** The answer of the flat index to one query, for a positive [k]. *)
Lemma flat_search_row ix q k :
  (0 < k)%Z ->
  Faiss.search ix [q] k
  = Ok ([map snd (Faiss.search_row ix k q)], [map fst (Faiss.search_row ix k q)]).
Proof.
  intros Hk. unfold Faiss.search. by destruct (Z.leb_spec k 0); [lia|].
Qed.

Lemma nearest_length q xs : length (Faiss.nearest q xs) = length xs.
Proof.
  rewrite (Permutation_length (FaissFacts.nearest_perm q xs)).
  apply length_imap.
Qed.

Lemma zip_row (row : list (Z * Q)) : zip (map fst row) (map snd row) = row.
Proof. induction row as [|[i d] row IH]; [done|]. cbn. by rewrite IH. Qed.



Lemma insert_hit_sorted h l :
  StronglySorted (fun a b : Z * Q => (snd a <= snd b)%Q) l ->
  StronglySorted (fun a b : Z * Q => (snd a <= snd b)%Q) (Faiss.insert_hit h l).
Proof.
  induction 1 as [|h' l Hl IH Hall]; cbn [Faiss.insert_hit].
  - by repeat constructor.
  - destruct (Qle_bool (snd h') (snd h)) eqn:Hle.
    + constructor; [done|]. rewrite FaissFacts.insert_hit_perm.
      constructor; [by apply Qle_bool_iff|done].
    + assert (Hlt : (snd h < snd h')%Q).
      { apply Qnot_le_lt. intros Hc. apply Qle_bool_iff in Hc. congruence. }
      constructor; [by constructor|].
      constructor; [by apply Qlt_le_weak|].
      eapply Forall_impl; [done|]. intros x Hx. cbn beta in *.
      eapply Qle_trans; [by apply Qlt_le_weak|done].
Qed.

(** The ranking of the flat index is by increasing distance. *)
Lemma nearest_sorted q xs :
  StronglySorted (fun a b : Z * Q => (snd a <= snd b)%Q) (Faiss.nearest q xs).
Proof.
  unfold Faiss.nearest.
  induction (imap (fun i x => (Z.of_nat i, Faiss.l2sqr q x)) xs) as [|h l IH];
    cbn [fold_right]; [constructor|by apply insert_hit_sorted].
Qed.



Lemma l2sqr_self (q : Faiss.vector) : (Faiss.l2sqr q q == 0)%Q.
Proof.
  unfold Faiss.l2sqr. induction q as [|a q IH]; [done|].
  cbn [zip_with fold_right]. rewrite IH. ring.
Qed.


(** What the search over the flat index returns for [0 < k <= ntotal]
    on a well-formed store: the tuples of the [k] first entries of the
    ranking. *)
Lemma search_flat_ranked (encode : list string -> list Faiss.vector)
    (self : VectorStore.t) (query : string) (k : Z) (q : Faiss.vector) :
  encode [query] = [q] ->
  well_formed self ->
  (0 < k <= len (VectorStore.metadata self))%Z ->
  exists results,
    VectorStore.search encode Faiss.search self query k = Ok results
    /\ Forall2 (hit_result (VectorStore.metadata self))
         (take (Z.to_nat k) (Faiss.nearest q (Faiss.xb (VectorStore.index self))))
         results.
Proof.
  intros Henc [Hcount Htext] Hk. unfold counts_agree in Hcount.
  assert (Hn : length (Faiss.xb (VectorStore.index self))
               = length (VectorStore.metadata self)).
  { unfold Faiss.ntotal, len in Hcount. lia. }
  rewrite (VectorStoreFacts.search_first_row encode Faiss.search self query k
             (map fst (Faiss.search_row (VectorStore.index self) k q))
             (map snd (Faiss.search_row (VectorStore.index self) k q))).
  2:{ rewrite Hcount. lia. }
  2:{ rewrite Henc. apply flat_search_row. lia. }
  rewrite zip_row. unfold Faiss.search_row.
  rewrite length_take, nearest_length.
  replace (Z.to_nat k - _)%nat with 0%nat by (unfold len in Hk; lia).
  cbn [replicate]. rewrite app_nil_r.
  destruct (VectorStoreFacts.collect_in_bounds (VectorStore.metadata self)
              (take (Z.to_nat k)
                 (Faiss.nearest q (Faiss.xb (VectorStore.index self)))) [] Htext)
    as (out & -> & Hout); [|by exists out].
  apply Forall_take. eapply Forall_impl; [apply FaissFacts.nearest_in_bounds|].
  intros h [Hh _]. unfold len in *. by rewrite <- Hn.
Qed.


(** X20. A text that was added is found: after [add_texts] with a model
    that embeds text by text, searching the flat index for one of the
    added texts returns, as its first result, a stored record at distance
    zero. *)
Theorem search_finds_added_text (embed : string -> Faiss.vector)
    (self : VectorStore.t) (fs : gmap string FS.file) (texts : list string)
    (meta : list (gmap string string)) (query : string) (k : Z) :
  well_formed self ->
  length texts = length meta ->
  Forall has_text meta ->
  query ∈ texts ->
  (0 < k <= len (VectorStore.metadata self) + len meta)%Z ->
  exists text record dist rest,
    VectorStore.search (map embed) Faiss.search
      (VectorStore.add_texts (map embed) self fs texts meta).1 query k
    = Ok ((text, record, dist) :: rest)
    /\ (dist == 0)%Q
    /\ record ∈ VectorStore.metadata self ++ meta.
Proof.
  intros [Hcount Htext] Hlen Hmeta Hq Hk.
  destruct texts as [|t texts]; [by apply elem_of_nil in Hq|].
  set (self' := (VectorStore.add_texts (map embed) self fs (t :: texts) meta).1).
  assert (Hmd : VectorStore.metadata self' = VectorStore.metadata self ++ meta) by done.
  assert (Hxb : Faiss.xb (VectorStore.index self')
                = Faiss.xb (VectorStore.index self) ++ map embed (t :: texts)) by done.
  assert (Hwf : well_formed self').
  { split; [|rewrite Hmd; by apply Forall_app].
    unfold counts_agree, Faiss.ntotal, len in *. rewrite Hxb, Hmd.
    rewrite !length_app, length_map. lia. }
  destruct (search_flat_ranked (map embed) self' query k (embed query) eq_refl Hwf)
    as (results & Hs & Hres).
  { rewrite Hmd. unfold len in *. rewrite length_app. lia. }
  set (ranking := Faiss.nearest (embed query) (Faiss.xb (VectorStore.index self'))) in *.
  assert (Hin : exists i, (i, Faiss.l2sqr (embed query) (embed query)) ∈ ranking).
  { assert (Hstored : embed query ∈ Faiss.xb (VectorStore.index self')).
    { rewrite Hxb. apply elem_of_app. right. by apply list_elem_of_fmap_2. }
    apply list_elem_of_lookup_1 in Hstored as [i Hi]. exists (Z.of_nat i).
    unfold ranking. rewrite FaissFacts.nearest_perm.
    eapply list_elem_of_lookup_2. by rewrite list_lookup_imap, Hi. }
  destruct Hin as [i Hin].
  pose proof (nearest_sorted (embed query) (Faiss.xb (VectorStore.index self')))
    as Hsorted.
  pose proof (FaissFacts.nearest_in_bounds (embed query)
                (Faiss.xb (VectorStore.index self'))) as Hbounds.
  fold ranking in Hsorted, Hbounds.
  destruct ranking as [|h ranking]; [by apply elem_of_nil in Hin|].
  destruct (Z.to_nat k) as [|k'] eqn:Hk'; [lia|]. cbn [take] in Hres.
  inversion Hres as [|? r ? rest (record & text & _ & Hlook & _ & ->) Hrest];
    subst.
  exists text, record, h.2, rest. split_and!; [done| |].
  - apply Qle_antisym.
    + rewrite <- (l2sqr_self (embed query)).
      apply StronglySorted_inv in Hsorted as [_ Hall].
      apply elem_of_cons in Hin as [Heq|Hin]; [rewrite <- Heq; apply Qle_refl|].
      exact (proj1 (Forall_forall _ _) Hall _ Hin).
    + apply Forall_cons in Hbounds as [[_ Hnn] _]. done.
  - rewrite <- Hmd. by eapply list_elem_of_lookup_2.
Qed.


(** X12 on the three-chunk store. *)
Lemma search_returns_stored_records_witness :
  Forall (fun r : string * gmap string string * Q =>
            r.1.2 ∈ VectorStore.metadata Demo.library
            /\ r.1.2 !! "text" = Some r.1.1) Demo.retrieved.
Proof.
  apply (search_returns_stored_records Demo.encode Faiss.search Demo.library
           "abc" 3 Demo.retrieved).
  reflexivity.
Defined.

(** X13 on the three-chunk store: label 7 is skipped. *)
Lemma search_skips_and_keeps_order_witness :
  exists results,
    VectorStore.search Demo.encode Samples.scripted_search Demo.library "abc" 3
    = Ok results
    /\ Forall2 (hit_result (VectorStore.metadata Demo.library))
         (kept_hits (VectorStore.metadata Demo.library)
            (zip [1%Z; 7%Z; 0%Z] [1%Q; 2%Q; 3%Q])) results.
Proof.
  apply (search_skips_and_keeps_order Demo.encode Samples.scripted_search
           Demo.library "abc" 3 [1%Z; 7%Z; 0%Z] [1%Q; 2%Q; 3%Q]).
  - by vm_compute.
  - reflexivity.
  - repeat constructor; eexists; reflexivity.
  - repeat constructor; by vm_compute.
Defined.

(** X14 on a store whose second record has no text. *)
Lemma search_key_error_witness :
  VectorStore.search Demo.encode Faiss.search Samples.untitled "abc" 2
  = Raise (KeyError "text").
Proof.
  apply (search_key_error Demo.encode Faiss.search Samples.untitled "abc" 2
           [1%Z; 0%Z] [4%Q; 4%Q]).
  - by vm_compute.
  - reflexivity.
  - reflexivity.
  - repeat constructor; by vm_compute.
  - left. exists {[ "source" := "b.txt" ]}. split; reflexivity.
Defined.

(** X15 on the three-chunk store: one text without a record. *)
Lemma add_texts_needs_equal_lengths_witness :
  counts_agree (VectorStore.add_texts Demo.encode Demo.library ∅ ["delta"] []).1
  <-> length ["delta"] = length ([] : list (gmap string string)).
Proof.
  apply (add_texts_needs_equal_lengths Demo.encode Demo.library ∅ ["delta"] []).
  - by vm_compute.
  - discriminate.
  - reflexivity.
Defined.



(** X20: the chunk [be] added to the three-chunk store is found first. *)
Lemma search_finds_added_text_witness :
  exists text record dist rest,
    VectorStore.search (map Samples.embed) Faiss.search
      (VectorStore.add_texts (map Samples.embed) Demo.library ∅
         ["be"; "epsilon"]
         [Demo.record "c.txt" "be"; Demo.record "c.txt" "epsilon"]).1 "be" 2
    = Ok ((text, record, dist) :: rest)
    /\ (dist == 0)%Q
    /\ record ∈ VectorStore.metadata Demo.library
                ++ [Demo.record "c.txt" "be"; Demo.record "c.txt" "epsilon"].
Proof.
  apply (search_finds_added_text Samples.embed Demo.library ∅
           ["be"; "epsilon"]
           [Demo.record "c.txt" "be"; Demo.record "c.txt" "epsilon"] "be" 2).
  - split; [by vm_compute|repeat constructor; eexists; reflexivity].
  - reflexivity.
  - repeat constructor; eexists; reflexivity.
  - set_solver.
  - by vm_compute.
Defined.





End VectorStoreMoreFacts.

(** ** Facts about the artifacts on disk *)

Module DiskFacts.
Section facts.

Variable resolve : string -> string.
Variable dim : Z.
Variable encode : list string -> list Faiss.vector.

Local Abbreviation __init__ := (Disk.__init__ resolve dim).
Local Abbreviation save := (Disk.save resolve).
Local Abbreviation add_texts := (Disk.add_texts resolve encode).
Local Abbreviation add_batches := (Disk.add_batches resolve encode).
Local Abbreviation reload_after := (Disk.reload_after resolve dim encode).

Lemma disk_init_paths (fs : gmap string FS.file) (ip mp : string) self :
  __init__ fs ip mp = Ok self ->
  VectorStore.index_path self = ip /\ VectorStore.meta_path self = mp.
Proof.
  unfold Disk.__init__, Disk._load_index, VectorStore.try_except.
  destruct (Disk.path_exists resolve fs ip && Disk.path_exists resolve fs mp);
    [|by intros [= <-]].
  destruct (Disk.read_index resolve fs ip); [|by intros [= <-]].
  destruct (Disk.np_load resolve fs mp); by intros [= <-].
Qed.

(** Saving and constructing again gives the store back, provided the
    two paths name different files and the metadata path carries numpy's
    extension. *)
Lemma disk_save_then_load (self : VectorStore.t) (fs : gmap string FS.file) :
  resolve (VectorStore.index_path self) <> resolve (VectorStore.meta_path self) ->
  FS.endswith (VectorStore.meta_path self) ".npy" = true ->
  __init__ (save self fs)
    (VectorStore.index_path self) (VectorStore.meta_path self) = Ok self.
Proof.
  destruct self as [ip mp ix md]. cbn [VectorStore.index_path VectorStore.meta_path].
  intros Hne Hext.
  unfold Disk.__init__, Disk._load_index, Disk.save, Disk.np_save,
    Disk.write_index, Disk.path_exists, Disk.read_index, Disk.np_load,
    FS.write_index, FS.path_exists, FS.read_index, FS.np_load.
  cbn [VectorStore.index_path VectorStore.meta_path VectorStore.index
       VectorStore.metadata].
  rewrite Hext.
  rewrite lookup_insert_ne, !lookup_insert_eq by done.
  done.
Qed.

Lemma disk_add_texts_reload (self : VectorStore.t) (fs : gmap string FS.file)
    (texts : list string) (meta : list (gmap string string)) :
  resolve (VectorStore.index_path self) <> resolve (VectorStore.meta_path self) ->
  FS.endswith (VectorStore.meta_path self) ".npy" = true ->
  __init__ fs (VectorStore.index_path self) (VectorStore.meta_path self) = Ok self ->
  let '(self', fs') := add_texts self fs texts meta in
  VectorStore.index_path self' = VectorStore.index_path self
  /\ VectorStore.meta_path self' = VectorStore.meta_path self
  /\ __init__ fs' (VectorStore.index_path self) (VectorStore.meta_path self) = Ok self'.
Proof.
  intros Hne Hext Hload. unfold Disk.add_texts.
  destruct texts as [|t texts]; [done|].
  split_and!; [done|done|].
  by apply (disk_save_then_load (VectorStore.mkStore _ _ _ _)).
Qed.

(** What is on disk after a run of [add_texts] calls is the store in
    memory. *)
Lemma disk_add_batches_reload batches : forall (self : VectorStore.t) fs self' fs',
  resolve (VectorStore.index_path self) <> resolve (VectorStore.meta_path self) ->
  FS.endswith (VectorStore.meta_path self) ".npy" = true ->
  __init__ fs (VectorStore.index_path self) (VectorStore.meta_path self) = Ok self ->
  add_batches self fs batches = (self', fs') ->
  __init__ fs' (VectorStore.index_path self) (VectorStore.meta_path self) = Ok self'.
Proof.
  induction batches as [|[texts meta] rest IH]; intros self fs self' fs' Hne Hext Hload.
  - cbn. by intros [= <- <-].
  - cbn [Disk.add_batches].
    pose proof (disk_add_texts_reload self fs texts meta Hne Hext Hload) as Hstep.
    destruct (add_texts self fs texts meta) as [self1 fs1].
    destruct Hstep as (Hip & Hmp & Hload1). rewrite <- Hip, <- Hmp in *.
    by apply IH.
Qed.

(** What the store holds in memory after a run of [add_texts] calls. *)
Lemma disk_add_batches_contents batches : forall (self : VectorStore.t) fs,
  Forall (fun b => length b.1 = length b.2
                   /\ length (encode b.1) = length b.1) batches ->
  let self' := (add_batches self fs batches).1 in
  Faiss.xb (VectorStore.index self')
  = Faiss.xb (VectorStore.index self) ++ concat (map (fun b => encode b.1) batches)
  /\ VectorStore.metadata self'
     = VectorStore.metadata self ++ concat (map snd batches).
Proof.
  induction batches as [|[texts meta] rest IH]; intros self fs Hb.
  - cbn. by rewrite !app_nil_r.
  - inversion Hb as [|? ? [Hlen Henc] Hrest]; subst. cbn [fst snd] in *.
    cbn [Disk.add_batches map concat].
    specialize (IH (add_texts self fs texts meta).1
                   (add_texts self fs texts meta).2 Hrest).
    destruct (add_texts self fs texts meta) as [self1 fs1] eqn:Hadd.
    cbn [fst snd] in IH. cbn zeta in *.
    destruct IH as [-> ->].
    unfold Disk.add_texts in Hadd. destruct texts as [|t texts].
    + injection Hadd as <- <-. cbn [fst snd].
      destruct meta; [|done]. destruct (encode []); [|done]. done.
    + injection Hadd as <- <-. cbn. by rewrite <- !app_assoc.
Qed.

(** X16. Saving a store and constructing one again over the same two
    paths gives the store back, when the two paths name different files
    and the metadata path ends in [.npy]; and saving touches no file
    other than the two that the paths name. *)
Theorem save_load_roundtrip (self : VectorStore.t) (fs : gmap string FS.file) :
  resolve (VectorStore.index_path self) <> resolve (VectorStore.meta_path self) ->
  FS.endswith (VectorStore.meta_path self) ".npy" = true ->
  __init__ (save self fs)
    (VectorStore.index_path self) (VectorStore.meta_path self) = Ok self
  /\ forall name, name <> resolve (VectorStore.index_path self) ->
       name <> resolve (VectorStore.meta_path self) ->
       save self fs !! name = fs !! name.
Proof.
  intros Hne Hext. split; [by apply disk_save_then_load|].
  intros name Hip Hmp.
  unfold Disk.save, Disk.np_save, Disk.write_index, FS.write_index.
  rewrite Hext. by rewrite !lookup_insert_ne.
Qed.

(** X17. Whatever a store held when it was constructed, after any run of
    [add_texts] calls with well-shaped batches a fresh store over the same
    paths (naming different files, the metadata path ending in [.npy])
    holds the old records followed by all the added ones, in order, and
    the old vectors followed by the new embeddings. *)
Theorem reload_keeps_everything (fs : gmap string FS.file) (ip mp : string)
    (self0 : VectorStore.t)
    (batches : list (list string * list (gmap string string))) :
  resolve ip <> resolve mp ->
  FS.endswith mp ".npy" = true ->
  __init__ fs ip mp = Ok self0 ->
  Forall (fun b => length b.1 = length b.2
                   /\ length (encode b.1) = length b.1) batches ->
  exists self,
    reload_after fs ip mp batches = Ok self
    /\ VectorStore.metadata self
       = VectorStore.metadata self0 ++ concat (map snd batches)
    /\ Faiss.xb (VectorStore.index self)
       = Faiss.xb (VectorStore.index self0)
         ++ concat (map (fun b => encode b.1) batches).
Proof.
  intros Hne Hext Hload Hb. unfold Disk.reload_after. rewrite Hload. cbn [bind].
  destruct (disk_init_paths fs ip mp self0 Hload) as [Hip Hmp].
  pose proof (disk_add_batches_contents batches self0 fs Hb) as [Hxb Hmd].
  destruct (add_batches self0 fs batches) as [self fs'] eqn:Hrun.
  exists self. cbn [fst] in *. split_and!; [|done|done].
  rewrite <- Hip, <- Hmp.
  apply (disk_add_batches_reload batches self0 fs);
    [by rewrite Hip, Hmp|by rewrite Hmp|by rewrite Hip, Hmp|done].
Qed.

(** X28. When the two paths name one file and the metadata path ends in
    [.npy], the metadata overwrites the index that [save] has just
    written: a store constructed over the same paths finds no index in
    that file and starts empty, whatever was saved. *)
Theorem aliased_paths_lose_store (self : VectorStore.t) (fs : gmap string FS.file) :
  resolve (VectorStore.index_path self) = resolve (VectorStore.meta_path self) ->
  FS.endswith (VectorStore.meta_path self) ".npy" = true ->
  __init__ (save self fs)
    (VectorStore.index_path self) (VectorStore.meta_path self)
  = Ok (VectorStore.empty dim (VectorStore.index_path self)
          (VectorStore.meta_path self)).
Proof.
  destruct self as [ip mp ix md]. cbn [VectorStore.index_path VectorStore.meta_path].
  intros Heq Hext.
  unfold Disk.__init__, Disk._load_index, Disk.save, Disk.np_save,
    Disk.write_index, Disk.path_exists, Disk.read_index, Disk.np_load,
    FS.write_index, FS.path_exists, FS.read_index, FS.np_load.
  cbn [VectorStore.index_path VectorStore.meta_path VectorStore.index
       VectorStore.metadata].
  rewrite Hext, Heq. rewrite !lookup_insert_eq. done.
Qed.

End facts.

(** When every path names a file of its own, the store on disk is the
    store of [VectorStore]. *)
Lemma own_file_init (dim : Z) (fs : gmap string FS.file) (ip mp : string) :
  Disk.__init__ (fun path => path) dim fs ip mp = VectorStore.__init__ dim fs ip mp.
Proof. reflexivity. Qed.

Lemma own_file_add_texts (encode : list string -> list Faiss.vector)
    (self : VectorStore.t) (fs : gmap string FS.file) (texts : list string)
    (meta : list (gmap string string)) :
  Disk.add_texts (fun path => path) encode self fs texts meta
  = VectorStore.add_texts encode self fs texts meta.
Proof. reflexivity. Qed.

(** X16 on the three-chunk store, in a directory where [./] may lead a
    path. *)
Lemma save_load_roundtrip_witness :
  Disk.__init__ Samples.realpath 1 (Disk.save Samples.realpath Demo.library ∅)
    (VectorStore.index_path Demo.library) (VectorStore.meta_path Demo.library)
  = Ok Demo.library
  /\ forall name,
       name <> Samples.realpath (VectorStore.index_path Demo.library) ->
       name <> Samples.realpath (VectorStore.meta_path Demo.library) ->
       Disk.save Samples.realpath Demo.library ∅ !! name
       = (∅ : gmap string FS.file) !! name.
Proof.
  apply (save_load_roundtrip Samples.realpath 1 Demo.library ∅).
  - discriminate.
  - reflexivity.
Defined.

(** X17 from an empty directory, one batch of one pair, the index path
    written with a leading [./]. *)
Lemma reload_keeps_everything_witness :
  exists self,
    Disk.reload_after Samples.realpath 1 Demo.encode ∅ "./faiss.index" "meta.npy"
      [(["alpha"], [Demo.record "a.txt" "alpha"])] = Ok self
    /\ VectorStore.metadata self
       = VectorStore.metadata (VectorStore.empty 1 "./faiss.index" "meta.npy")
         ++ concat (map snd [(["alpha"], [Demo.record "a.txt" "alpha"])])
    /\ Faiss.xb (VectorStore.index self)
       = Faiss.xb (VectorStore.index (VectorStore.empty 1 "./faiss.index" "meta.npy"))
         ++ concat (map (fun b : list string * list (gmap string string) =>
                           Demo.encode b.1)
                      [(["alpha"], [Demo.record "a.txt" "alpha"])]).
Proof.
  apply (reload_keeps_everything Samples.realpath 1 Demo.encode ∅
           "./faiss.index" "meta.npy"
           (VectorStore.empty 1 "./faiss.index" "meta.npy")
           [(["alpha"], [Demo.record "a.txt" "alpha"])]).
  - discriminate.
  - reflexivity.
  - reflexivity.
  - repeat constructor.
Defined.

(** X28 on a store saved to [./m.npy] and [m.npy]. *)
Lemma aliased_paths_lose_store_witness :
  Disk.__init__ Samples.realpath 1 (Disk.save Samples.realpath Samples.aliased ∅)
    (VectorStore.index_path Samples.aliased) (VectorStore.meta_path Samples.aliased)
  = Ok (VectorStore.empty 1 (VectorStore.index_path Samples.aliased)
          (VectorStore.meta_path Samples.aliased)).
Proof.
  apply (aliased_paths_lose_store Samples.realpath 1 Samples.aliased ∅).
  - reflexivity.
  - reflexivity.
Defined.

End DiskFacts.

(** ** More facts about QASystem *)

Module QASystemMoreFacts.

(** When no later element has a strictly greater key, the first stays. *)
Lemma max_from_keeps_first {A : Type} (key : A -> Q) : forall l best,
  Forall (fun x => (key x <= key best)%Q) l -> max_from key best l = best.
Proof.
  induction l as [|x l IH]; intros best Hall; [done|].
  inversion Hall as [|? ? Hx Hl]; subst. cbn [max_from].
  destruct (key x ?= key best)%Q eqn:Hcmp; try by apply IH.
  by apply Qle_alt in Hx.
Qed.

Lemma collect_all_skipped md : forall hits acc,
  Forall (fun h : Z * Q => (len md <= h.1)%Z) hits ->
  VectorStore.collect md hits acc = Ok acc.
Proof.
  induction hits as [|[idx dist] rest IH]; intros acc Hall; [done|].
  inversion Hall as [|? ? Hidx Hrest]; subst. cbn [fst] in Hidx.
  rewrite VectorStoreFacts.collect_skips by done. by apply IH.
Qed.

Section facts.

Variable dim : Z.
Variable encode : list string -> list Faiss.vector.
Variable index_search :
  Faiss.Index -> list Faiss.vector -> Z -> result (list (list Q) * list (list Z)).
Variable qa_pipeline : string -> string -> result QASystem.output.

Local Abbreviation search := (VectorStore.search encode index_search).
Local Abbreviation extract := (QASystem.extract qa_pipeline).
Local Abbreviation answer_question :=
  (QASystem.answer_question encode index_search qa_pipeline).

(** X21. When the pipeline fails on every retrieved context, the request
    still succeeds and the best answer is the candidate of the first
    retrieved context: an empty answer with score zero and the error text. *)
Theorem all_failures_pick_first (vs : VectorStore.t) (question : string)
    (top_k : Z) (ctx : string) (m : gmap string string) (dist : Q)
    (rs : list (string * gmap string string * Q)) :
  search vs question top_k = Ok ((ctx, m, dist) :: rs) ->
  Forall (fun r : string * gmap string string * Q =>
            exists e, qa_pipeline question r.1.1 = Raise e)
    ((ctx, m, dist) :: rs) ->
  exists e,
    qa_pipeline question ctx = Raise e
    /\ answer_question vs question top_k
       = Ok {| QASystem.best_answer :=
                 Some {| QASystem.answer := ""; QASystem.score := 0%Q;
                         QASystem.context := ctx; QASystem.meta := m;
                         QASystem.error := Some (str_of_exn e) |};
               QASystem.all_answers := map (extract question) ((ctx, m, dist) :: rs);
               QASystem.message := None |}.
Proof.
  intros Hs Hall. inversion Hall as [|? ? [e He] Hrest]; subst. cbn [fst] in He.
  exists e. split; [done|].
  rewrite (QASystemFacts.answer_question_nonempty _ _ _ _ _ _ _ _ Hs).
  rewrite max_from_keeps_first.
  - unfold QASystem.extract at 1. by rewrite He.
  - apply Forall_fmap. eapply Forall_impl; [exact Hrest|].
    intros [[c' m'] d'] [e' He']. cbn [fst] in He'.
    unfold compose, QASystem.extract. rewrite He, He'. cbn. apply Qle_refl.
Qed.

(** X22. A candidate that records an error is the best answer only when
    no retrieved context scored above zero. *)
Theorem failed_best_means_no_positive_score (vs : VectorStore.t)
    (question : string) (top_k : Z) (reply : QASystem.reply)
    (best : QASystem.candidate) :
  answer_question vs question top_k = Ok reply ->
  QASystem.best_answer reply = Some best ->
  QASystem.error best <> None ->
  Forall (fun c => (QASystem.score c <= 0)%Q) (QASystem.all_answers reply).
Proof.
  intros Hrun Hbest Herr.
  destruct (search vs question top_k) as [[|r rs]|e] eqn:Hs.
  - unfold QASystem.answer_question in Hrun. rewrite Hs in Hrun.
    injection Hrun as <-. constructor.
  - rewrite (QASystemFacts.answer_question_nonempty _ _ _ _ _ _ _ _ Hs) in Hrun.
    injection Hrun as <-. cbn [QASystem.best_answer QASystem.all_answers] in *.
    injection Hbest as Hbest.
    destruct (QASystemFacts.max_from_first QASystem.score
                (map (extract question) rs) (extract question r) [] [])
      as (pre & post & Heq & Hpre & Hpost);
      [by intros c Hc; apply elem_of_nil in Hc..|].
    cbn [app] in Heq. rewrite Hbest in *.
    assert (Hzero : QASystem.score best = 0%Q).
    { assert (Hin : best ∈ map (extract question) (r :: rs)).
      { cbn [map]. rewrite Heq. apply elem_of_app. right. by left. }
      apply list_elem_of_fmap in Hin as ([[c m] d] & -> & _).
      unfold QASystem.extract in *.
      by destruct (qa_pipeline question c). }
    cbn [map]. rewrite Heq. apply Forall_app. split.
    + apply Forall_forall. intros c Hc. rewrite <- Hzero.
      by apply Qlt_le_weak, Hpre.
    + constructor; [rewrite Hzero; apply Qle_refl|].
      apply Forall_forall. intros c Hc. rewrite <- Hzero. by apply Hpost.
  - unfold QASystem.answer_question in Hrun. by rewrite Hs in Hrun.
Qed.

(** X23. Over a directory in which an artifact file is missing, the store
    is constructed all the same, and every question, whatever [top_k],
    the index and the pipeline, is answered by the reply without a best
    answer and the message [No documents in the index.] *)
Theorem missing_artifact_answers_no_documents (fs : gmap string FS.file)
    (ip mp : string) :
  FS.path_exists fs ip = false \/ FS.path_exists fs mp = false ->
  exists vs,
    VectorStore.__init__ dim fs ip mp = Ok vs
    /\ forall question top_k,
         search vs question top_k = Ok []
         /\ answer_question vs question top_k = Ok no_documents.
Proof.
  intros Hmiss. exists (VectorStore.empty dim ip mp). split.
  - unfold VectorStore.__init__, VectorStore._load_index.
    by destruct Hmiss as [-> | ->]; [|rewrite andb_false_r].
  - intros question top_k.
    assert (Hs : search (VectorStore.empty dim ip mp) question top_k = Ok [])
      by done.
    split; [done|]. unfold QASystem.answer_question. by rewrite Hs.
Qed.

(** X24. When every label of the row lies at or past the end of the
    metadata, all hits are skipped: [search] returns nothing and
    [answer_question] reports [No documents in the index.] although the
    index is not empty. *)
Theorem stale_index_answers_no_documents (vs : VectorStore.t)
    (question : string) (top_k : Z) (labels : list Z) (dists : list Q) :
  Faiss.ntotal (VectorStore.index vs) <> 0%Z ->
  index_search (VectorStore.index vs) (encode [question]) top_k
  = Ok ([dists], [labels]) ->
  Forall (fun idx => (len (VectorStore.metadata vs) <= idx)%Z) labels ->
  search vs question top_k = Ok []
  /\ answer_question vs question top_k = Ok no_documents.
Proof.
  intros Hpos Hrow Hhigh.
  assert (Hs : search vs question top_k = Ok []).
  { rewrite (VectorStoreFacts.search_first_row _ _ _ _ _ _ _ Hpos Hrow).
    apply collect_all_skipped, Forall_forall. intros [idx dist] Hhit.
    apply elem_of_zip_l in Hhit. by eapply Forall_forall in Hhigh. }
  split; [done|]. unfold QASystem.answer_question. by rewrite Hs.
Qed.

End facts.
(** X21 on the three-chunk store with a pipeline that always fails. *)
Lemma all_failures_pick_first_witness :
  exists e,
    Samples.failing_pipeline "abc" "be" = Raise e
    /\ QASystem.answer_question Demo.encode Faiss.search Samples.failing_pipeline
         Demo.library "abc" 3
       = Ok {| QASystem.best_answer :=
                 Some {| QASystem.answer := ""; QASystem.score := 0%Q;
                         QASystem.context := "be";
                         QASystem.meta := Demo.record "a.txt" "be";
                         QASystem.error := Some (str_of_exn e) |};
               QASystem.all_answers :=
                 map (QASystem.extract Samples.failing_pipeline "abc")
                   (("be", Demo.record "a.txt" "be", 1%Q)
                    :: [("alpha", Demo.record "a.txt" "alpha", 4%Q);
                        ("gamma delta", Demo.record "b.txt" "gamma delta", 64%Q)]);
               QASystem.message := None |}.
Proof.
  apply (all_failures_pick_first Demo.encode Faiss.search Samples.failing_pipeline
           Demo.library "abc" 3 "be" (Demo.record "a.txt" "be") 1%Q
           [("alpha", Demo.record "a.txt" "alpha", 4%Q);
            ("gamma delta", Demo.record "b.txt" "gamma delta", 64%Q)]).
  - reflexivity.
  - repeat constructor; by eexists.
Defined.

(** X22 on the same run. *)
Lemma failed_best_means_no_positive_score_witness :
  Forall (fun c => (QASystem.score c <= 0)%Q)
    (QASystem.all_answers Samples.failed_reply).
Proof.
  apply (failed_best_means_no_positive_score Demo.encode Faiss.search
           Samples.failing_pipeline Demo.library "abc" 3 Samples.failed_reply
           Samples.failed_best).
  - reflexivity.
  - reflexivity.
  - discriminate.
Defined.

(** X23 on an empty directory. *)
Lemma missing_artifact_answers_no_documents_witness :
  exists vs,
    VectorStore.__init__ 1 ∅ "faiss.index" "meta.npy" = Ok vs
    /\ forall question top_k,
         VectorStore.search Demo.encode Faiss.search vs question top_k = Ok []
         /\ QASystem.answer_question Demo.encode Faiss.search Demo.qa_pipeline
              vs question top_k = Ok no_documents.
Proof.
  apply (missing_artifact_answers_no_documents 1 Demo.encode Faiss.search
           Demo.qa_pipeline ∅ "faiss.index" "meta.npy").
  left. reflexivity.
Defined.

(** X24 on an index of one vector beside empty metadata. *)
Lemma stale_index_answers_no_documents_witness :
  VectorStore.search Demo.encode Faiss.search (Demo.store [] ["alpha"]) "abc" 1
  = Ok []
  /\ QASystem.answer_question Demo.encode Faiss.search Demo.qa_pipeline
       (Demo.store [] ["alpha"]) "abc" 1 = Ok no_documents.
Proof.
  apply (stale_index_answers_no_documents Demo.encode Faiss.search
           Demo.qa_pipeline (Demo.store [] ["alpha"]) "abc" 1 [0%Z] [4%Q]).
  - by vm_compute.
  - reflexivity.
  - repeat constructor; by vm_compute.
Defined.

End QASystemMoreFacts.

(** ** Facts about add_book, the document list and the reset button *)

Module AppFacts.

Lemma chunk_record_text source chunk :
  Main.chunk_record source chunk !! "text" = Some chunk.
Proof. unfold Main.chunk_record. apply lookup_insert_eq. Qed.

(** The texts read back from the records are the chunks. *)
Lemma comprehension_texts source chunks :
  PyStr.comprehension (fun m => dict_getitem m "text")
    (map (Main.chunk_record source) chunks) = Ok chunks.
Proof.
  induction chunks as [|c chunks IH]; [done|].
  cbn [map PyStr.comprehension]. unfold dict_getitem at 1.
  rewrite chunk_record_text. cbn [bind]. by rewrite IH.
Qed.

Section add_book.

Variable has_tokenizer : bool.
Variable sent_tokenize : string -> result (list string).
Variable load_pdf : string -> result string.
Variable load_txt : string -> result string.
Variable load_docx : string -> result string.
Variable encode : list string -> list Faiss.vector.

Local Abbreviation add_book :=
  (Main.add_book has_tokenizer sent_tokenize load_pdf load_txt load_docx encode).

(** X25. [add_book] keeps a store well formed: when it returns, the
    store still has as many vectors as records and every record carries
    its text. An empty cleaned text leaves store and files untouched;
    otherwise one record per chunk of the cleaned text is appended, in
    chunk order, each with the base name of the path as its source, and
    the embeddings of the chunks are appended to the index. *)
Theorem add_book_keeps_well_formed (file_path : string) (vs vs' : VectorStore.t)
    (fs fs' : gmap string FS.file) :
  (forall texts, length (encode texts) = length texts) ->
  well_formed vs ->
  add_book file_path vs fs = Ok (vs', fs') ->
  well_formed vs'
  /\ exists text,
       DocumentLoader.load_and_clean load_pdf load_txt load_docx file_path = Ok text
       /\ (text = "" -> vs' = vs /\ fs' = fs)
       /\ (text <> "" ->
           exists chunks,
             Chunker.chunk_text has_tokenizer sent_tokenize text 500 = Ok chunks
             /\ VectorStore.metadata vs'
                = VectorStore.metadata vs
                  ++ map (Main.chunk_record (PyStr.basename file_path)) chunks
             /\ Faiss.xb (VectorStore.index vs')
                = Faiss.xb (VectorStore.index vs) ++ encode chunks).
Proof.
  intros Henc [Hcount Htext]. unfold Main.add_book.
  destruct (DocumentLoader.load_and_clean _ _ _ _) as [text|e]; [|done].
  cbn [bind]. destruct text as [|c text]; cbn [truthy negb].
  - intros [= <- <-]. split; [done|]. exists "". by split_and!.
  - destruct (Chunker.chunk_text _ _ _ _) as [chunks|e] eqn:Hchunks; [|done].
    cbn [bind]. rewrite comprehension_texts. cbn [bind].
    set (meta := map (Main.chunk_record (PyStr.basename file_path)) chunks).
    intros Hadd.
    assert (Hshape : Faiss.xb (VectorStore.index vs')
                     = Faiss.xb (VectorStore.index vs) ++ encode chunks
                     /\ VectorStore.metadata vs' = VectorStore.metadata vs ++ meta).
    { unfold VectorStore.add_texts in Hadd. destruct chunks as [|ch chunks].
      - injection Hadd as <- <-. specialize (Henc []).
        destruct (encode []); [|done]. by rewrite !app_nil_r.
      - by injection Hadd as <- <-. }
    destruct Hshape as [Hxb Hmd]. split.
    + split.
      * unfold counts_agree, Faiss.ntotal, len in *. rewrite Hxb, Hmd.
        rewrite !length_app, Henc. unfold meta. rewrite length_map. lia.
      * rewrite Hmd. apply Forall_app. split; [done|].
        apply Forall_fmap, Forall_forall. intros ch _.
        exists ch. apply chunk_record_text.
    + exists (String c text). split_and!; [done|by intros [=]|].
      intros _. by exists chunks.
Qed.

End add_book.

(** X25 on the text file of [Samples.load_txt], added to the three-chunk
    store. *)
Lemma add_book_keeps_well_formed_witness :
  well_formed
    (VectorStore.add_texts Demo.encode Demo.library ∅ ["Call me Ishmael."]
       [Main.chunk_record "moby.txt" "Call me Ishmael."]).1.
Proof.
  refine (proj1 (add_book_keeps_well_formed true Demo.sent_tokenize
                   Samples.no_reader Samples.load_txt Samples.no_reader
                   Demo.encode "books/moby.txt" Demo.library _ ∅ _ _ _ _)).
  - intros texts. apply length_map.
  - split; [by vm_compute|repeat constructor; eexists; reflexivity].
  - reflexivity.
Defined.

(** What the counter holds for a key after counting a list on top of
    earlier counts. *)
Lemma counter_fold (items : list string) : forall (counts : gmap string nat) key,
  foldl (fun counts item => <[item := S (default 0%nat (counts !! item))]> counts)
        counts items !! key
  = match length (filter (fun item => item = key) items) with
    | O => counts !! key
    | S n => Some (S n + default 0%nat (counts !! key))%nat
    end.
Proof.
  induction items as [|item items IH]; intros counts key; [done|].
  cbn [foldl]. rewrite IH, filter_cons.
  destruct (decide (item = key)) as [->|Hne].
  - rewrite lookup_insert_eq. cbn [length default].
    destruct (length (filter _ items)); f_equal; unfold id; lia.
  - by rewrite lookup_insert_ne.
Qed.

Lemma filter_sources (key : string) (md : list (gmap string string)) :
  length (filter (fun item => item = key)
            (map (fun m : gmap string string => default "unknown" (m !! "source")) md))
  = filed_under key md.
Proof.
  unfold filed_under. induction md as [|m md IH]; [done|].
  cbn [map]. rewrite !filter_cons.
  destruct (decide (default "unknown" (m !! "source") = key)); cbn [length];
    by rewrite IH.
Qed.

(** X26. The document list counts, for every source, the records that
    name it, and files the records without a source under [unknown];
    a source that no record names is absent from the list. *)
Theorem list_documents_counts (vs : VectorStore.t) (source : string) :
  App.list_documents vs !! source
  = match filed_under source (VectorStore.metadata vs) with
    | O => None
    | S n => Some (S n)
    end.
Proof.
  unfold App.list_documents, PyStr.Counter.
  rewrite counter_fold, filter_sources, lookup_empty.
  destruct (filed_under source (VectorStore.metadata vs)); [done|].
  cbn [default]. f_equal. lia.
Qed.

(** X27. After the reset button a store constructed over the same two
    paths is empty, whatever was on disk and in memory before. *)
Theorem reset_then_construct_is_empty (dim : Z) (vs : VectorStore.t)
    (fs : gmap string FS.file) :
  VectorStore.__init__ dim (App.reset_persisted_index vs fs)
    (VectorStore.index_path vs) (VectorStore.meta_path vs)
  = Ok (VectorStore.empty dim (VectorStore.index_path vs) (VectorStore.meta_path vs)).
Proof.
  unfold VectorStore.__init__, VectorStore._load_index, App.reset_persisted_index.
  set (ip := VectorStore.index_path vs). set (mp := VectorStore.meta_path vs).
  assert (Hmp : FS.path_exists
            (if FS.path_exists (if FS.path_exists fs ip then delete ip fs else fs) mp
             then delete mp (if FS.path_exists fs ip then delete ip fs else fs)
             else (if FS.path_exists fs ip then delete ip fs else fs)) mp = false).
  { destruct (FS.path_exists (if FS.path_exists fs ip then delete ip fs else fs) mp)
      eqn:Hex; [|done].
    unfold FS.path_exists. by rewrite lookup_delete_eq. }
  by rewrite Hmp, andb_false_r.
Qed.

End AppFacts.
